(** * The service scheduler of [scheduler/service_sched.go]

    A shallow embedding of the service scheduler: the evaluation dispatcher
    [Process], the register handler [handleJobRegister] with its bounded
    try-commit loop, the iterator stack assembly [iterStack], the placement
    loop [planAllocations] and the evict-all handler [evictJobAllocs].

    Conventions of the embedding.
    - Go's [(value, error)] returns are values of [errorOr].
    - The scheduler object is threaded explicitly.  Its [logger] field is the
      list of lines written so far.  The planner is an opaque collaborator
      with hidden state: it is a function of the plans it has already been
      handed ([submitted]) and of the plan being submitted.
    - A [goto START] loop is a driver that consumes one unit of fuel each
      time control reaches the label, around a definition for the body.
    - A nil-map lookup that is dereferenced is a [Panic]. *)

From Stdlib Require Import ZArith Lia.
From stdpp Require Import base option list gmap strings fin_maps pretty.

Open Scope Z_scope.
Open Scope string_scope.
Open Scope list_scope.

(** ** Results of fallible calls *)

(** The text of a Go [error] value produced by a collaborator. *)
Definition GoError := string.

Inductive errorOr (A : Type) : Type :=
| Ok (a : A)
| Fail (e : GoError).
Arguments Ok {A} a.
Arguments Fail {A} e.

(** ** Types of the [structs] package that the scheduler only passes around *)

(** [structs.Constraint] and [structs.Resources] are never inspected by the
    scheduler: they are handed from the job to the iterators.  [zeroResources]
    is [new(structs.Resources)] and [addResources size delta] is the value of
    [size] after [size.Add(delta)] (whose error the caller drops). *)
Class Structs : Type := {
  Constraint : Type;
  Resources : Type;
  zeroResources : Resources;
  addResources : Resources -> Resources -> Resources;
  (** [structs.PlanResult], which only [FullCommit] reads. *)
  PlanResult : Type;
  (** What the iterators of a stack remember between calls (the shuffled
      order and offset of the source, the items seen by the limit, the best
      option of the max-score selection). *)
  IterState : Type;
}.

Section DataModel.
Context `{Structs}.

Record Node : Type := {
  Node_ID : string;
  Node_Datacenter : string;
  Node_Status : string;
}.

Record Task : Type := {
  Task_Name : string;
  Task_Driver : string;
  Task_Resources : Resources;
  Task_Constraints : list Constraint;
}.

Record TaskGroup : Type := {
  TG_Name : string;
  TG_Count : Z;
  TG_Constraints : list Constraint;
  TG_Tasks : list Task;
}.

Record Job : Type := {
  Job_ID : string;
  Job_Priority : Z;
  Job_Datacenters : list string;
  Job_Constraints : list Constraint;
  Job_TaskGroups : list TaskGroup;
}.

Inductive AllocStatus : Type :=
| AllocStatusPending
| AllocStatusRunning
| AllocStatusEvict.

Record Allocation : Type := {
  Alloc_ID : string;
  Alloc_Name : string;
  Alloc_NodeID : string;
  Alloc_JobID : string;
  Alloc_Job : Job;
  Alloc_Resources : Resources;
  Alloc_Status : AllocStatus;
}.

Inductive EvalTrigger : Type :=
| EvalTriggerJobRegister
| EvalTriggerJobDeregister
| EvalTriggerNodeUpdate
| EvalTriggerOther (reason : string).

Record Evaluation : Type := {
  Eval_ID : string;
  Eval_Priority : Z;
  Eval_TriggeredBy : EvalTrigger;
  Eval_JobID : string;
}.

(** The plan: evictions are allocation ids per node ([map[string][]string],
    as [evictJobAllocs] builds it), placements are allocations per node. *)
Record Plan : Type := {
  Plan_EvalID : string;
  Plan_Priority : Z;
  NodeEvict : gmap string (list string);
  NodeAllocation : gmap string (list Allocation);
}.

(** [allocNameID]: an allocation name with the id of the allocation that
    carries it (empty for a name that has none yet). *)
Record allocNameID : Type := {
  Name : string;
  ID : string;
}.

(** ** The state snapshot and the planner *)

(** The [State] interface as the record of its three read methods; the node
    iterator of [NodesByDatacenterStatus] is the list it yields before nil. *)
Record State : Type := {
  GetJobByID : string -> errorOr (option Job);
  AllocsByJob : string -> errorOr (list Allocation);
  NodesByDatacenterStatus : string -> string -> errorOr (list Node);
}.

(** Modelled from the spec: the node status Ready, a constant of the structs
    package that [baseNodes] passes to the snapshot. *)
Definition NodeStatusReady : string := "ready".

(** [Planner.SubmitPlan], given the plans submitted before this one. *)
Definition Planner : Type :=
  list Plan -> Plan -> errorOr (PlanResult * option State).

(** ** The iterator stack *)

(** An option the ranking half of the stack yields; its float score plays no
    part in [planAllocations] and is left out. *)
Record RankedNode : Type := {
  RankedNode_Node : Node;
}.

Record BinPackIterator : Type := {
  BinPack_resources : option Resources;
  BinPack_evict : bool;
  BinPack_priority : Z;
}.

(** [IteratorStack] by the parameters each iterator was built or last
    reconfigured with.  [StackContext] is the snapshot the [EvalContext]
    reads; the context's plan is the caller's plan (the same pointer), so the
    selection is given the current plan explicitly. *)
Record IteratorStack : Type := {
  StackContext : State;
  BaseNodes : list Node;
  Source : list Node;
  JobConstraint : list Constraint;
  TaskGroupDrivers : gset string;
  TaskGroupConstraint : list Constraint;
  BinPack : BinPackIterator;
  Limit : Z;
  MaxScore : IterState;
}.

End DataModel.

(** ** Collaborators whose code is outside [service_sched.go] *)

Class Collaborators `{Structs} : Type := {
  (** [planResult.FullCommit(plan)]: fully committed?, expected, actual. *)
  FullCommit : PlanResult -> Plan -> bool * Z * Z;
  (** The diff's test that the job an existing allocation embeds still has
      the same definition of its group as the current job. *)
  groupUnchanged : Job -> TaskGroup -> Allocation -> bool;
  (** The iterators' memory right after the stack is assembled over the
      base nodes ([NewRandomIterator] shuffles them). *)
  newIterState : list Node -> IterState;
  (** [stack.MaxScore.Reset()]. *)
  resetIterState : IterState -> IterState;
  (** [stack.MaxScore.Next()]: the option selected, if any, and what the
      iterators remember afterwards. *)
  maxScoreNext : IteratorStack -> Plan -> option RankedNode * IterState;
  (** [mock.GenerateUUID()], by the number of ids drawn before. *)
  GenerateUUID : nat -> string;
  (** [int(math.Ceil(math.Log2(float64(n))))], the float pipeline of
      [iterStack], on a positive node count. *)
  ceilLog2 : Z -> Z;
}.

Section Scheduler.
Context `{Collaborators}.

(** ** The scheduler object, its log and its errors *)

(** The lines [s.logger.Printf] writes, by format. *)
Inductive LogLine : Type :=
| LogJobNotFound (evalID jobID : string)
| LogNeeds (evalID jobID : string) (place update evict ignore : nat)
| LogAttempted (evalID jobID : string) (expected actual : Z)
| LogFailedPlace (missing : allocNameID) (jobID : string)
| LogNeedsEvictions (evalID jobID : string) (evictions : nat).

(** The errors [Process] returns, by the [fmt.Errorf] format that builds
    them; [ErrPlanner] is the planner's error, returned as it came. *)
Inductive Error : Type :=
| ErrUnsupportedTrigger (reason : EvalTrigger)
| ErrMaxAttempts (attempts : Z)
| ErrGetJob (jobID : string) (e : GoError)
| ErrGetAllocs (jobID : string) (e : GoError)
| ErrIterStack (e : GoError)
| ErrPlanAllocs (e : GoError)
| ErrPlanner (e : GoError).

(** [ServiceScheduler]: the three fields of the Go struct, then what the two
    stateful collaborators have been asked so far: the plans handed to the
    planner and the number of ids drawn from the generator. *)
Record ServiceScheduler : Type := {
  logger : list LogLine;
  state : State;
  planner : Planner;
  submitted : list Plan;
  uuids : nat;
}.

Definition Printf (s : ServiceScheduler) (line : LogLine) : ServiceScheduler :=
  {| logger := logger s ++ [line]; state := state s; planner := planner s;
     submitted := submitted s; uuids := uuids s |}.

Definition setState (s : ServiceScheduler) (newState : State) : ServiceScheduler :=
  {| logger := logger s; state := newState; planner := planner s;
     submitted := submitted s; uuids := uuids s |}.

Definition recordSubmit (s : ServiceScheduler) (plan : Plan) : ServiceScheduler :=
  {| logger := logger s; state := state s; planner := planner s;
     submitted := submitted s ++ [plan]; uuids := uuids s |}.

Definition drawUUID (s : ServiceScheduler) : string * ServiceScheduler :=
  (GenerateUUID (uuids s),
   {| logger := logger s; state := state s; planner := planner s;
      submitted := submitted s; uuids := S (uuids s) |}).

(** What a call of a handler does: it returns an error or nil, or it panics
    on a nil dereference. *)
Inductive Outcome : Type :=
| Returned (err : option Error)
| Panicked.

(** How one pass over the body of a [START] loop ends. *)
Inductive Flow : Type :=
| FlowReturn (s : ServiceScheduler) (err : option Error)
| FlowGoto (s : ServiceScheduler)
| FlowEvictAll (s : ServiceScheduler)
| FlowPanic (s : ServiceScheduler).

(** The scheduler as a pass leaves it. *)
Definition flowSched (f : Flow) : ServiceScheduler :=
  match f with
  | FlowReturn s _ | FlowGoto s | FlowEvictAll s | FlowPanic s => s
  end.

(** ** Plans *)

Definition planEvictions (plan : Plan) (node : string) : list string :=
  default [] (NodeEvict plan !! node).

Definition planAllocs (plan : Plan) (node : string) : list Allocation :=
  default [] (NodeAllocation plan !! node).

(** Modelled from the spec: [eval.MakePlan(job)] of the structs package, "a
    fresh plan scoped to the eval" with the evaluation's id and priority and
    nothing to evict or to place. *)
Definition MakePlan (eval : Evaluation) (job : Job) : Plan :=
  {| Plan_EvalID := Eval_ID eval; Plan_Priority := Eval_Priority eval;
     NodeEvict := ∅; NodeAllocation := ∅ |}.

(** Modelled from the spec: [plan.AppendEvict(alloc)] of the structs package,
    one more allocation id to evict under the allocation's node. *)
Definition AppendEvict (plan : Plan) (alloc : Allocation) : Plan :=
  {| Plan_EvalID := Plan_EvalID plan; Plan_Priority := Plan_Priority plan;
     NodeEvict := <[Alloc_NodeID alloc :=
                      planEvictions plan (Alloc_NodeID alloc) ++ [Alloc_ID alloc]]>
                    (NodeEvict plan);
     NodeAllocation := NodeAllocation plan |}.

(** Modelled from the spec: [plan.AppendAlloc(alloc)] of the structs package,
    one more allocation to create under the allocation's node. *)
Definition AppendAlloc (plan : Plan) (alloc : Allocation) : Plan :=
  {| Plan_EvalID := Plan_EvalID plan; Plan_Priority := Plan_Priority plan;
     NodeEvict := NodeEvict plan;
     NodeAllocation := <[Alloc_NodeID alloc :=
                           planAllocs plan (Alloc_NodeID alloc) ++ [alloc]]>
                         (NodeAllocation plan) |}.

(** ** The diff engine (scheduler utilities outside [service_sched.go]) *)

Definition allocName (job : Job) (tg : TaskGroup) (i : nat) : string :=
  Job_ID job +:+ "." +:+ TG_Name tg +:+ "[" +:+ pretty i +:+ "]".

(** Modelled from the spec: [materializeTaskGroups], which "expands each
    TaskGroup into count allocation names <jobID>.<group>[<i>]", each name
    mapped to its group. *)
Definition materializeTaskGroups (job : Job) : gmap string TaskGroup :=
  foldl (fun out tg =>
           foldl (fun out i => <[allocName job tg i := tg]> out) out
                 (seq 0 (Z.to_nat (TG_Count tg))))
        ∅ (Job_TaskGroups job).

(** Modelled from the spec: [indexAllocs], which "keys by allocation name;
    the latest allocation wins if duplicates". *)
Definition indexAllocs (allocs : list Allocation) : gmap string Allocation :=
  foldl (fun out alloc => <[Alloc_Name alloc := alloc]> out) ∅ allocs.

Definition nameOnly (name : string) : allocNameID :=
  {| Name := name; ID := "" |}.

Definition nameOf (name : string) (alloc : Allocation) : allocNameID :=
  {| Name := name; ID := Alloc_ID alloc |}.

(** Modelled from the spec: [diffAllocs].  A desired name with no indexed
    allocation is placed; one whose allocation still has the group's
    definition is ignored, otherwise updated; an indexed allocation whose
    name is not desired is evicted.  Go ranges over the two maps in an
    unspecified order; the model ranges in the order of [map_to_list]. *)
Definition diffAllocs (job : Job) (required : gmap string TaskGroup)
    (existing : gmap string Allocation)
  : list allocNameID * list allocNameID * list allocNameID * list allocNameID :=
  let req := map_to_list required in
  let place :=
    omap (fun '(name, tg) =>
            match existing !! name with
            | None => Some (nameOnly name)
            | Some _ => None
            end) req in
  let update :=
    omap (fun '(name, tg) =>
            match existing !! name with
            | Some alloc =>
                if groupUnchanged job tg alloc then None else Some (nameOf name alloc)
            | None => None
            end) req in
  let ignore :=
    omap (fun '(name, tg) =>
            match existing !! name with
            | Some alloc =>
                if groupUnchanged job tg alloc then Some (nameOf name alloc) else None
            | None => None
            end) req in
  let evict :=
    omap (fun '(name, alloc) =>
            match required !! name with
            | None => Some (nameOf name alloc)
            | Some _ => None
            end) (map_to_list existing) in
  (place, update, evict, ignore).

(** Modelled from the spec: [addEvictsToPlan], which appends the indexed
    allocation of every listed name to the plan as an eviction. *)
Definition addEvictsToPlan (plan : Plan) (evicts : list allocNameID)
    (indexed : gmap string Allocation) : Plan :=
  foldl (fun plan evict =>
           match indexed !! Name evict with
           | Some alloc => AppendEvict plan alloc
           | None => plan
           end) plan evicts.

(** ** Assembling the iterator stack *)

(** [maxScheduleAttempts] limits the number of times [handleJobRegister]
    attempts to schedule while it keeps hitting conflicts. *)
Definition maxScheduleAttempts : Z := 5.

(** [baseNodes]: the ready nodes of every datacenter of the job, in the
    order of the datacenters; the first failing lookup is returned. *)
Fixpoint baseNodes_from (st : State) (dcs : list string) (out : list Node)
  : errorOr (list Node) :=
  match dcs with
  | [] => Ok out
  | dc :: dcs =>
      match NodesByDatacenterStatus st dc NodeStatusReady with
      | Fail err => Fail err
      | Ok iter => baseNodes_from st dcs (out ++ iter)
      end
  end.

Definition baseNodes (s : ServiceScheduler) (job : Job) : errorOr (list Node) :=
  baseNodes_from (state s) (Job_Datacenters job) [].

(** The limit of the limit iterator: a floor of 2, raised to the ceiling of
    the binary logarithm of the number of nodes when that is larger. *)
Definition stackLimit (nodes : list Node) : Z :=
  let limit := 2 in
  let n := Z.of_nat (length nodes) in
  if (0 <? n)%Z then
    let logLimit := ceilLog2 n in
    if (limit <? logLimit)%Z then logLimit else limit
  else limit.

(** The float pipeline is exact when it yields the least exponent whose
    power of two reaches the node count. *)
Definition ceilLog2_exact : Prop :=
  forall n : Z, 0 < n -> 2 ^ (ceilLog2 n - 1) < n <= 2 ^ ceilLog2 n.

(** [iterStack]: the base nodes and the chain of iterators over them.  The
    task group filters and the bin-pack resources are filled in later. *)
Definition iterStack (s : ServiceScheduler) (job : Job) (plan : Plan)
  : errorOr IteratorStack :=
  match baseNodes s job with
  | Fail err => Fail err
  | Ok nodes =>
      Ok {| StackContext := state s;
            BaseNodes := nodes;
            Source := nodes;
            JobConstraint := Job_Constraints job;
            TaskGroupDrivers := ∅;
            TaskGroupConstraint := [];
            BinPack := {| BinPack_resources := None; BinPack_evict := false;
                          BinPack_priority := Job_Priority job |};
            Limit := stackLimit nodes;
            MaxScore := newIterState nodes |}
  end.

(** The setters of the stack that [planAllocations] and the register handler
    call; each replaces the parameter its name says and nothing else. *)
Definition resetMaxScore (st : IteratorStack) : IteratorStack :=
  {| StackContext := StackContext st; BaseNodes := BaseNodes st;
     Source := Source st; JobConstraint := JobConstraint st;
     TaskGroupDrivers := TaskGroupDrivers st;
     TaskGroupConstraint := TaskGroupConstraint st;
     BinPack := BinPack st; Limit := Limit st;
     MaxScore := resetIterState (MaxScore st) |}.

Definition SetDrivers (st : IteratorStack) (drivers : gset string) : IteratorStack :=
  {| StackContext := StackContext st; BaseNodes := BaseNodes st;
     Source := Source st; JobConstraint := JobConstraint st;
     TaskGroupDrivers := drivers;
     TaskGroupConstraint := TaskGroupConstraint st;
     BinPack := BinPack st; Limit := Limit st; MaxScore := MaxScore st |}.

Definition SetConstraints (st : IteratorStack) (constr : list Constraint)
  : IteratorStack :=
  {| StackContext := StackContext st; BaseNodes := BaseNodes st;
     Source := Source st; JobConstraint := JobConstraint st;
     TaskGroupDrivers := TaskGroupDrivers st;
     TaskGroupConstraint := constr;
     BinPack := BinPack st; Limit := Limit st; MaxScore := MaxScore st |}.

Definition SetResources (st : IteratorStack) (size : Resources) : IteratorStack :=
  {| StackContext := StackContext st; BaseNodes := BaseNodes st;
     Source := Source st; JobConstraint := JobConstraint st;
     TaskGroupDrivers := TaskGroupDrivers st;
     TaskGroupConstraint := TaskGroupConstraint st;
     BinPack := {| BinPack_resources := Some size;
                   BinPack_evict := BinPack_evict (BinPack st);
                   BinPack_priority := BinPack_priority (BinPack st) |};
     Limit := Limit st; MaxScore := MaxScore st |}.

Definition SetState (st : IteratorStack) (newState : State) : IteratorStack :=
  {| StackContext := newState; BaseNodes := BaseNodes st;
     Source := Source st; JobConstraint := JobConstraint st;
     TaskGroupDrivers := TaskGroupDrivers st;
     TaskGroupConstraint := TaskGroupConstraint st;
     BinPack := BinPack st; Limit := Limit st; MaxScore := MaxScore st |}.

Definition afterNext (st : IteratorStack) (it : IterState) : IteratorStack :=
  {| StackContext := StackContext st; BaseNodes := BaseNodes st;
     Source := Source st; JobConstraint := JobConstraint st;
     TaskGroupDrivers := TaskGroupDrivers st;
     TaskGroupConstraint := TaskGroupConstraint st;
     BinPack := BinPack st; Limit := Limit st; MaxScore := it |}.

(** ** Placing the missing allocations *)

(** The totals of a task group as the loop over its tasks accumulates them:
    the constraints start from the group's own, the driver set from the
    empty map, the size from [new(structs.Resources)]. *)
Definition groupTotals (taskGroup : TaskGroup)
  : list Constraint * gset string * Resources :=
  foldl (fun '(constr, drivers, size) task =>
           (constr ++ Task_Constraints task,
            {[Task_Driver task]} ∪ drivers,
            addResources size (Task_Resources task)))
        (TG_Constraints taskGroup, ∅, zeroResources)
        (TG_Tasks taskGroup).

(** [planAllocations].  [None] is the panic of dereferencing the nil task
    group that [groups[missing.Name]] yields for a name that is no key. *)
Fixpoint planAllocations (s : ServiceScheduler) (stack : IteratorStack)
    (job : Job) (plan : Plan) (place : list allocNameID)
    (groups : gmap string TaskGroup)
  : option (ServiceScheduler * IteratorStack * Plan * option GoError) :=
  match place with
  | [] => Some (s, stack, plan, None)
  | missing :: place =>
      match groups !! Name missing with
      | None => None
      | Some taskGroup =>
          let '(constr, drivers, size) := groupTotals taskGroup in
          let stack := resetMaxScore stack in
          let stack := SetDrivers stack drivers in
          let stack := SetConstraints stack constr in
          let stack := SetResources stack size in
          let '(option, it) := maxScoreNext stack plan in
          let stack := afterNext stack it in
          match option with
          | None =>
              let s := Printf s (LogFailedPlace missing (Job_ID job)) in
              planAllocations s stack job plan place groups
          | Some option =>
              let '(id, s) := drawUUID s in
              let alloc :=
                {| Alloc_ID := id;
                   Alloc_Name := Name missing;
                   Alloc_NodeID := Node_ID (RankedNode_Node option);
                   Alloc_JobID := Job_ID job;
                   Alloc_Job := job;
                   Alloc_Resources := size;
                   Alloc_Status := AllocStatusPending |} in
              planAllocations s stack job (AppendAlloc plan alloc) place groups
          end
      end
  end.

(** ** The evict-all handler *)

(** The plan [evictJobAllocs] creates: every allocation of the job appended
    as an eviction to a plan that has nothing to place. *)
Definition evictPlan (eval : Evaluation) (allocs : list Allocation) : Plan :=
  let plan := {| Plan_EvalID := Eval_ID eval;
                 Plan_Priority := Eval_Priority eval;
                 NodeEvict := ∅; NodeAllocation := ∅ |} in
  foldl AppendEvict plan allocs.

(** One pass over the body of [evictJobAllocs], from [START] to a return or
    to [goto START]. *)
Definition evictJobAllocs_pass (s : ServiceScheduler) (eval : Evaluation) : Flow :=
  match AllocsByJob (state s) (Eval_JobID eval) with
  | Fail err => FlowReturn s (Some (ErrGetAllocs (Eval_JobID eval) err))
  | Ok allocs =>
      let s := Printf s (LogNeedsEvictions (Eval_ID eval) (Eval_JobID eval)
                                           (length allocs)) in
      if (length allocs =? 0)%nat then FlowReturn s None
      else
        let plan := evictPlan eval allocs in
        let reply := planner s (submitted s) plan in
        let s := recordSubmit s plan in
        match reply with
        | Fail err => FlowReturn s (Some (ErrPlanner err))
        | Ok (_, Some newState) => FlowGoto (setState s newState)
        | Ok (_, None) => FlowReturn s None
        end
  end.

(** [evictJobAllocs]: the loop has no counter; the model runs out of [fuel]
    ([None]) when control reaches [START] more than [fuel] times. *)
Fixpoint evictJobAllocs (fuel : nat) (s : ServiceScheduler) (eval : Evaluation)
  : option (ServiceScheduler * Outcome) :=
  match fuel with
  | O => None
  | S fuel =>
      match evictJobAllocs_pass s eval with
      | FlowReturn s err => Some (s, Returned err)
      | FlowGoto s => evictJobAllocs fuel s eval
      | FlowEvictAll s => evictJobAllocs fuel s eval
      | FlowPanic s => Some (s, Panicked)
      end
  end.

(** ** The register handler *)

(** Where the planning half of a pass stands when it ends: ready to submit
    the plan (with the job and the stack it was planned on), or already
    leaving the pass. *)
Inductive Planned : Type :=
| ReadyToSubmit (s : ServiceScheduler) (job : Job) (stack : IteratorStack) (plan : Plan)
| Leaves (f : Flow).

(** The body of [handleJobRegister] from the job lookup to the placement of
    the missing allocations. *)
Definition handleJobRegister_plan (s : ServiceScheduler) (eval : Evaluation)
  : Planned :=
  match GetJobByID (state s) (Eval_JobID eval) with
  | Fail err => Leaves (FlowReturn s (Some (ErrGetJob (Eval_JobID eval) err)))
  | Ok None =>
      Leaves (FlowReturn
                (Printf s (LogJobNotFound (Eval_ID eval) (Eval_JobID eval))) None)
  | Ok (Some job) =>
      let groups := materializeTaskGroups job in
      if (size groups =? 0)%nat then Leaves (FlowEvictAll s)
      else
        match AllocsByJob (state s) (Eval_JobID eval) with
        | Fail err =>
            Leaves (FlowReturn s (Some (ErrGetAllocs (Eval_JobID eval) err)))
        | Ok allocs =>
            let indexed := indexAllocs allocs in
            let '(place, update, evict, ignore) := diffAllocs job groups indexed in
            let s := Printf s (LogNeeds (Eval_ID eval) (Eval_JobID eval)
                                        (length place) (length update)
                                        (length evict) (length ignore)) in
            if ((length place =? 0)%nat && (length update =? 0)%nat
                && (length evict =? 0)%nat)%bool
            then Leaves (FlowReturn s None)
            else
              let plan := MakePlan eval job in
              let plan := addEvictsToPlan plan evict indexed in
              let plan := addEvictsToPlan plan update indexed in
              let place := place ++ update in
              match iterStack s job plan with
              | Fail err => Leaves (FlowReturn s (Some (ErrIterStack err)))
              | Ok stack =>
                  match planAllocations s stack job plan place groups with
                  | None => Leaves (FlowPanic s)
                  | Some (s, stack, plan, Some err) =>
                      Leaves (FlowReturn s (Some (ErrPlanAllocs err)))
                  | Some (s, stack, plan, None) => ReadyToSubmit s job stack plan
                  end
              end
        end
  end.

(** The body of [handleJobRegister] from the submission of the plan on.  The
    stack is returned with the flow: a state refresh rebinds its context
    before the jump to [START]. *)
Definition handleJobRegister_submit (s : ServiceScheduler) (eval : Evaluation)
    (stack : IteratorStack) (plan : Plan) : IteratorStack * Flow :=
  let reply := planner s (submitted s) plan in
  let s := recordSubmit s plan in
  match reply with
  | Fail err => (stack, FlowReturn s (Some (ErrPlanner err)))
  | Ok (planResult, Some newState) =>
      (SetState stack newState, FlowGoto (setState s newState))
  | Ok (planResult, None) =>
      let '(fullCommit, expected, actual) := FullCommit planResult plan in
      if negb fullCommit then
        (stack, FlowGoto (Printf s (LogAttempted (Eval_ID eval) (Eval_JobID eval)
                                                 expected actual)))
      else (stack, FlowReturn s None)
  end.

(** One pass over the body of [handleJobRegister] after the attempt check.
    The stack is local to the pass: the next one assembles its own. *)
Definition handleJobRegister_pass (s : ServiceScheduler) (eval : Evaluation) : Flow :=
  match handleJobRegister_plan s eval with
  | Leaves flow => flow
  | ReadyToSubmit s job stack plan => snd (handleJobRegister_submit s eval stack plan)
  end.

(** The [START] loop of [handleJobRegister] from a given value of
    [attempts].  [fuel] bounds how often control reaches [START] here,
    [evictFuel] how often in the evict-all handler it may hand over to. *)
Fixpoint handleJobRegister_from (fuel evictFuel : nat) (attempts : Z)
    (s : ServiceScheduler) (eval : Evaluation)
  : option (ServiceScheduler * Outcome) :=
  match fuel with
  | O => None
  | S fuel =>
      if (attempts =? maxScheduleAttempts)%Z then
        Some (s, Returned (Some (ErrMaxAttempts attempts)))
      else
        let attempts := attempts + 1 in
        match handleJobRegister_pass s eval with
        | FlowReturn s err => Some (s, Returned err)
        | FlowEvictAll s => evictJobAllocs evictFuel s eval
        | FlowGoto s => handleJobRegister_from fuel evictFuel attempts s eval
        | FlowPanic s => Some (s, Panicked)
        end
  end.

Definition handleJobRegister (fuel evictFuel : nat) (s : ServiceScheduler)
    (eval : Evaluation) : option (ServiceScheduler * Outcome) :=
  handleJobRegister_from fuel evictFuel 0 s eval.

(** [handleNodeUpdate] is a placeholder that returns nil. *)
Definition handleNodeUpdate (s : ServiceScheduler) (eval : Evaluation)
  : option (ServiceScheduler * Outcome) :=
  Some (s, Returned None).

(** [Process]: the handler the trigger of the evaluation selects. *)
Definition Process (fuel : nat) (s : ServiceScheduler) (eval : Evaluation)
  : option (ServiceScheduler * Outcome) :=
  match Eval_TriggeredBy eval with
  | EvalTriggerJobRegister => handleJobRegister fuel fuel s eval
  | EvalTriggerJobDeregister => evictJobAllocs fuel s eval
  | EvalTriggerNodeUpdate => handleNodeUpdate s eval
  | EvalTriggerOther _ =>
      Some (s, Returned (Some (ErrUnsupportedTrigger (Eval_TriggeredBy eval))))
  end.

(** [restarts eval k s s']: from [s], [k] passes of the register handler in
    a row end in [goto START] and leave the scheduler as [s']. *)
Inductive restarts (eval : Evaluation)
  : nat -> ServiceScheduler -> ServiceScheduler -> Prop :=
| restarts_none (s : ServiceScheduler) : restarts eval 0 s s
| restarts_more (k : nat) (s s1 s2 : ServiceScheduler) :
    handleJobRegister_pass s eval = FlowGoto s1 ->
    restarts eval k s1 s2 ->
    restarts eval (S k) s s2.

(** The errors a pass of the register handler can return: a failed read of
    the snapshot, a failed assembly of the stack, or the planner's error. *)
Definition passError (err : Error) : Prop :=
  match err with
  | ErrGetJob _ _ | ErrGetAllocs _ _ | ErrIterStack _ | ErrPlanner _ => True
  | ErrUnsupportedTrigger _ | ErrMaxAttempts _ | ErrPlanAllocs _ => False
  end.

(** The same evaluation under another trigger. *)
Definition withTrigger (eval : Evaluation) (reason : EvalTrigger) : Evaluation :=
  {| Eval_ID := Eval_ID eval; Eval_Priority := Eval_Priority eval;
     Eval_TriggeredBy := reason; Eval_JobID := Eval_JobID eval |}.

(** ** Whole runs *)

(** [NewServiceScheduler]: the factory binds the logger, the state and the
    planner; nothing has been submitted and no id drawn yet. *)
Definition NewServiceScheduler (lines : list LogLine) (st : State) (p : Planner)
  : ServiceScheduler :=
  {| logger := lines; state := st; planner := p; submitted := []; uuids := 0 |}.

(** A plan of the evaluation: it carries the evaluation's id and priority,
    and what it places under a node is bound to that node and pending. *)
Definition planOfEval (eval : Evaluation) (plan : Plan) : Prop :=
  Plan_EvalID plan = Eval_ID eval
  /\ Plan_Priority plan = Eval_Priority eval
  /\ forall node alloc,
       alloc ∈ planAllocs plan node ->
       Alloc_NodeID alloc = node /\ Alloc_Status alloc = AllocStatusPending.

(** [runs P s s']: [s'] is [s] after some work of a handler.  The planner is
    the same, ids and log lines were only added, the plans submitted since
    all satisfy [P], and the state is the one of [s] or a snapshot the
    planner returned in answer to one of those plans. *)
Definition runs (P : Plan -> Prop) (s s' : ServiceScheduler) : Prop :=
  planner s' = planner s
  /\ (uuids s <= uuids s')%nat
  /\ (exists lines, logger s' = logger s ++ lines)
  /\ exists plans,
       submitted s' = submitted s ++ plans
       /\ Forall P plans
       /\ (state s' = state s
           \/ exists before plan after planResult,
                plans = before ++ plan :: after
                /\ planner s (submitted s ++ before) plan
                   = Ok (planResult, Some (state s'))).

(** How the register handler can have returned nil from its own loop: the
    job is not in the state it holds, or the diff on that state found nothing
    to place, update or evict, or the last plan it submitted was answered
    with no new snapshot and a full commit. *)
Definition registerSettled (eval : Evaluation) (s' : ServiceScheduler) : Prop :=
  GetJobByID (state s') (Eval_JobID eval) = Ok None
  \/ (exists job allocs ignore,
        GetJobByID (state s') (Eval_JobID eval) = Ok (Some job)
        /\ AllocsByJob (state s') (Eval_JobID eval) = Ok allocs
        /\ diffAllocs job (materializeTaskGroups job) (indexAllocs allocs)
           = ([], [], [], ignore))
  \/ (exists before plan planResult,
        submitted s' = before ++ [plan]
        /\ planner s' before plan = Ok (planResult, None)
        /\ (FullCommit planResult plan).1.1 = true).

(** How the evict-all handler can have returned nil: the state it holds lists
    no allocation of the job, or the last plan it submitted evicts all the
    allocations that state lists and was answered with no new snapshot. *)
Definition evictSettled (eval : Evaluation) (s' : ServiceScheduler) : Prop :=
  exists allocs,
    AllocsByJob (state s') (Eval_JobID eval) = Ok allocs
    /\ (allocs = []
        \/ exists before planResult,
             submitted s' = before ++ [evictPlan eval allocs]
             /\ planner s' before (evictPlan eval allocs) = Ok (planResult, None)).

End Scheduler.

(** ** A concrete cluster

    Collaborators simple enough to run: resources are CPU shares, a plan
    result is the number of placements the planner committed, the selection
    takes the first of the nodes within the limit that has no placement in
    the plan yet, and the binary logarithm is exact. *)

Definition demoStructs : Structs :=
  {| Constraint := string; Resources := Z; zeroResources := 0;
     addResources := Z.add; PlanResult := nat; IterState := nat |}.

Section Cluster.
#[local] Existing Instance demoStructs.

Definition pendingCount (plan : Plan) : nat :=
  length (mjoin (snd <$> map_to_list (NodeAllocation plan))).

Definition firstFree (plan : Plan) (nodes : list Node) : option Node :=
  find (fun n => match default [] (NodeAllocation plan !! Node_ID n) with
                 | [] => true
                 | _ => false
                 end) nodes.

Definition demoCollab : Collaborators :=
  {| FullCommit := fun res plan =>
       (Nat.eqb res (pendingCount plan), Z.of_nat (pendingCount plan), Z.of_nat res);
     groupUnchanged := fun job tg alloc =>
       Z.eqb (Job_Priority (Alloc_Job alloc)) (Job_Priority job);
     newIterState := fun nodes => 0%nat;
     resetIterState := fun it => 0%nat;
     maxScoreNext := fun stack plan =>
       (Build_RankedNode
          <$> firstFree plan (take (Z.to_nat (Limit stack)) (Source stack)),
        S (MaxScore stack));
     GenerateUUID := fun k => "uuid-" +:+ pretty k;
     ceilLog2 := Z.log2_up |}.

#[local] Existing Instance demoCollab.

Definition webTask : Task :=
  {| Task_Name := "nginx"; Task_Driver := "docker"; Task_Resources := 500;
     Task_Constraints := ["kernel=linux"] |}.

Definition logTask : Task :=
  {| Task_Name := "logger"; Task_Driver := "exec"; Task_Resources := 100;
     Task_Constraints := ["arch=amd64"] |}.

Definition webGroup (count : Z) : TaskGroup :=
  {| TG_Name := "frontend"; TG_Count := count; TG_Constraints := ["dc=dc1"];
     TG_Tasks := [webTask; logTask] |}.

(** The job "web": the priority stands in for the version of its definition. *)
Definition webJob (priority count : Z) : Job :=
  {| Job_ID := "web"; Job_Priority := priority; Job_Datacenters := ["dc1"];
     Job_Constraints := []; Job_TaskGroups := [webGroup count] |}.

Definition readyNode (id : string) : Node :=
  {| Node_ID := id; Node_Datacenter := "dc1"; Node_Status := NodeStatusReady |}.

(** An allocation placed for the definition of "web" at priority 40. *)
Definition oldAlloc (id name node : string) : Allocation :=
  {| Alloc_ID := id; Alloc_Name := name; Alloc_NodeID := node;
     Alloc_JobID := "web"; Alloc_Job := webJob 40 2; Alloc_Resources := 600;
     Alloc_Status := AllocStatusRunning |}.

(** A snapshot with three ready nodes in dc1, the job "web" (if any) and its
    allocations. *)
Definition snapshot (job : option Job) (allocs : list Allocation) : State :=
  {| GetJobByID := fun id => if String.eqb id "web" then Ok job else Ok None;
     AllocsByJob := fun id => if String.eqb id "web" then Ok allocs else Ok [];
     NodesByDatacenterStatus := fun dc status =>
       if (String.eqb dc "dc1" && String.eqb status NodeStatusReady)%bool
       then Ok [readyNode "n1"; readyNode "n2"; readyNode "n3"]
       else Ok [] |}.

(** Planners: one commits every placement, one commits none, one answers
    every plan with the same refreshed snapshot. *)
Definition commitAll : Planner :=
  fun _ plan => Ok (pendingCount plan, None).

Definition commitNone : Planner :=
  fun _ plan => Ok (0%nat, None).

Definition refreshAlways (st : State) : Planner :=
  fun _ _ => Ok (0%nat, Some st).

Definition newScheduler (st : State) (p : Planner) : ServiceScheduler :=
  {| logger := []; state := st; planner := p; submitted := []; uuids := 0 |}.

Definition registerEval : Evaluation :=
  {| Eval_ID := "eval-1"; Eval_Priority := 50;
     Eval_TriggeredBy := EvalTriggerJobRegister; Eval_JobID := "web" |}.

(** "web" wants two instances and has none. *)
Definition freshState : State := snapshot (Some (webJob 50 2)) [].

(** "web" wants two instances; instance 0 runs an older definition and a
    stale instance 5 is left from a larger count. *)
Definition staleAllocs : list Allocation :=
  [oldAlloc "a1" "web.frontend[0]" "n1"; oldAlloc "a2" "web.frontend[5]" "n2"].

Definition staleState : State := snapshot (Some (webJob 50 2)) staleAllocs.

(** "web" is registered with count 0 while one instance still runs. *)
Definition zeroCountState : State :=
  snapshot (Some (webJob 50 0)) [oldAlloc "a1" "web.frontend[0]" "n1"].

(** "web" is unchanged and both instances run. *)
Definition settledState : State :=
  snapshot (Some (webJob 40 2))
           [oldAlloc "a1" "web.frontend[0]" "n1"; oldAlloc "a2" "web.frontend[1]" "n2"].

(** Schedulers over these snapshots. *)
Definition freshScheduler : ServiceScheduler := newScheduler freshState commitAll.

Definition refreshScheduler : ServiceScheduler :=
  newScheduler freshState (refreshAlways freshState).

Definition partialScheduler : ServiceScheduler := newScheduler freshState commitNone.

Definition staleScheduler : ServiceScheduler := newScheduler staleState commitAll.

Definition absentScheduler : ServiceScheduler :=
  newScheduler (snapshot None []) commitAll.

Definition settledScheduler : ServiceScheduler := newScheduler settledState commitAll.

Definition zeroCountCommit : ServiceScheduler := newScheduler zeroCountState commitAll.

Definition zeroCountPartial : ServiceScheduler := newScheduler zeroCountState commitNone.

Definition zeroCountScheduler : ServiceScheduler :=
  newScheduler zeroCountState (refreshAlways zeroCountState).

(** Where the planning half of the first pass of [partialScheduler] ends. *)
Definition partialReady : Planned :=
  Eval vm_compute in handleJobRegister_plan partialScheduler registerEval.

(** A place list entry, an empty plan and a stack over the three nodes, as
    the first pass on [freshState] hands them to [planAllocations]. *)
Definition missing0 : allocNameID := nameOnly "web.frontend[0]".

Definition emptyPlan : Plan := MakePlan registerEval (webJob 50 2).

Definition threeNodeStack : IteratorStack :=
  {| StackContext := freshState;
     BaseNodes := [readyNode "n1"; readyNode "n2"; readyNode "n3"];
     Source := [readyNode "n1"; readyNode "n2"; readyNode "n3"];
     JobConstraint := []; TaskGroupDrivers := ∅; TaskGroupConstraint := [];
     BinPack := {| BinPack_resources := None; BinPack_evict := false;
                   BinPack_priority := 50 |};
     Limit := 2; MaxScore := 0%nat |}.

(** The planner keeps answering with the snapshot in which "web" has count 0
    and one allocation. *)
Definition keepsRefreshing (s : ServiceScheduler) : Prop :=
  state s = zeroCountState /\ planner s = refreshAlways zeroCountState.

(** "web" asks for one instance in two datacenters; the ready nodes of dc1
    can be listed, any other lookup of nodes fails. *)
Definition twoDcJob : Job :=
  {| Job_ID := "web"; Job_Priority := 50; Job_Datacenters := ["dc1"; "dc2"];
     Job_Constraints := []; Job_TaskGroups := [webGroup 1] |}.

Definition flakyState : State :=
  {| GetJobByID := fun _ => Ok (Some twoDcJob);
     AllocsByJob := fun _ => Ok [];
     NodesByDatacenterStatus := fun dc _ =>
       if String.eqb dc "dc1" then Ok [readyNode "n1"]
       else Fail "datacenter unreachable" |}.

Definition flakyScheduler : ServiceScheduler := newScheduler flakyState commitAll.

(** A snapshot that answers no read. *)
Definition unreadableState : State :=
  {| GetJobByID := fun _ => Fail "snapshot closed";
     AllocsByJob := fun _ => Fail "snapshot closed";
     NodesByDatacenterStatus := fun _ _ => Fail "snapshot closed" |}.

Definition unreadableScheduler : ServiceScheduler :=
  newScheduler unreadableState commitAll.

(** A planner that fails every submission. *)
Definition rejectAll : Planner := fun _ _ => Fail "no cluster leader".

Definition rejectedScheduler : ServiceScheduler :=
  newScheduler zeroCountState rejectAll.

(** Two names to place, and the results of some runs on the cluster. *)
Definition missing1 : allocNameID := nameOnly "web.frontend[1]".

Definition freshPlaced
  : option (ServiceScheduler * IteratorStack * Plan * option GoError) :=
  Eval vm_compute in
    planAllocations freshScheduler threeNodeStack (webJob 50 2) emptyPlan
                    [missing0; missing1] (materializeTaskGroups (webJob 50 2)).

Definition freshDone : option (ServiceScheduler * Outcome) :=
  Eval vm_compute in Process 3 freshScheduler registerEval.

Definition refreshDone : option (ServiceScheduler * Outcome) :=
  Eval vm_compute in Process 6 refreshScheduler registerEval.

Definition factoryDone : option (ServiceScheduler * Outcome) :=
  Eval vm_compute in
    Process 3 (NewServiceScheduler [] staleState commitAll) registerEval.

End Cluster.

(** * Properties *)

Section Properties.
Context `{Collaborators}.

(** ** The iterator stack *)

Lemma ceilLog2_exact_log2_up (n : Z) :
  ceilLog2_exact -> 0 < n -> ceilLog2 n = Z.log2_up n.
Proof.
  intros Hexact Hn. destruct (Hexact n Hn) as [Hlo Hhi].
  destruct (Z_lt_le_dec (ceilLog2 n) 0) as [Hneg | Hnn].
  - rewrite Z.pow_neg_r in Hhi by assumption. lia.
  - destruct (Z.eq_dec (ceilLog2 n) 0) as [H0' | Hpos].
    + rewrite H0' in Hhi. change (2 ^ 0) with 1 in Hhi.
      assert (n = 1) as -> by lia. rewrite H0'. reflexivity.
    + symmetry. apply Z.log2_up_unique; [lia |].
      replace (Z.pred (ceilLog2 n)) with (ceilLog2 n - 1) by lia. lia.
Qed.

Lemma stackLimit_spec (nodes : list Node) :
  ceilLog2_exact ->
  stackLimit nodes = Z.max 2 (Z.log2_up (Z.of_nat (length nodes))).
Proof.
  intros Hexact. unfold stackLimit.
  destruct (Z.ltb_spec 0 (Z.of_nat (length nodes))) as [Hpos | Hzero].
  - rewrite (ceilLog2_exact_log2_up _ Hexact Hpos).
    destruct (Z.ltb_spec 2 (Z.log2_up (Z.of_nat (length nodes)))); lia.
  - assert (Z.of_nat (length nodes) = 0) as -> by lia. reflexivity.
Qed.

Lemma log2_up_small (n : Z) : n <= 4 -> Z.log2_up n <= 2.
Proof.
  intros Hn. transitivity (Z.log2_up 4).
  - apply Z.log2_up_le_mono. exact Hn.
  - reflexivity.
Qed.

Lemma iterStack_fields (s : ServiceScheduler) (job : Job) (plan : Plan)
    (stack : IteratorStack) :
  iterStack s job plan = Ok stack ->
  baseNodes s job = Ok (BaseNodes stack)
  /\ Limit stack = stackLimit (BaseNodes stack)
  /\ StackContext stack = state s.
Proof.
  unfold iterStack. destruct (baseNodes s job) as [nodes | err]; [| discriminate].
  intros [= <-]. simpl. auto.
Qed.

(** C7: the limit handed to the limit iterator of a stack that [iterStack]
    assembles is [max 2 (ceil (log2 N))] for [N] base nodes, provided the
    float logarithm pipeline is exact; for up to four base nodes, none
    included, it is 2. *)
Theorem iterStack_limit (s : ServiceScheduler) (job : Job) (plan : Plan)
    (stack : IteratorStack) :
  ceilLog2_exact ->
  iterStack s job plan = Ok stack ->
  Limit stack = Z.max 2 (Z.log2_up (Z.of_nat (length (BaseNodes stack))))
  /\ ((length (BaseNodes stack) <= 4)%nat -> Limit stack = 2)
  /\ (length (BaseNodes stack) = 0%nat -> Limit stack = 2).
Proof.
  intros Hexact Hstack.
  destruct (iterStack_fields _ _ _ _ Hstack) as (_ & Hlimit & _).
  rewrite Hlimit, (stackLimit_spec _ Hexact).
  split; [reflexivity |]. split.
  - intros Hfew.
    pose proof (log2_up_small (Z.of_nat (length (BaseNodes stack)))) as Hlog.
    lia.
  - intros ->. reflexivity.
Qed.

(** ** Plans *)

Lemma planEvictions_AppendEvict (plan : Plan) (alloc : Allocation) (node : string) :
  planEvictions (AppendEvict plan alloc) node
  = if decide (Alloc_NodeID alloc = node)
    then planEvictions plan node ++ [Alloc_ID alloc]
    else planEvictions plan node.
Proof.
  unfold planEvictions at 1. simpl. case_decide as Hnode.
  - subst node. rewrite lookup_insert_eq. reflexivity.
  - rewrite lookup_insert_ne by assumption. reflexivity.
Qed.

Lemma foldl_AppendEvict_evictions (allocs : list Allocation) (plan : Plan)
    (node : string) :
  planEvictions (foldl AppendEvict plan allocs) node
  = planEvictions plan node
    ++ (Alloc_ID <$> filter (fun a => Alloc_NodeID a = node) allocs).
Proof.
  revert plan. induction allocs as [| alloc allocs IH]; intros plan; simpl.
  - rewrite app_nil_r. reflexivity.
  - rewrite IH, planEvictions_AppendEvict, filter_cons.
    case_decide; [| reflexivity].
    rewrite fmap_cons, <- app_assoc. reflexivity.
Qed.

Lemma foldl_AppendEvict_frame (allocs : list Allocation) (plan : Plan) :
  NodeAllocation (foldl AppendEvict plan allocs) = NodeAllocation plan
  /\ Plan_EvalID (foldl AppendEvict plan allocs) = Plan_EvalID plan
  /\ Plan_Priority (foldl AppendEvict plan allocs) = Plan_Priority plan.
Proof.
  revert plan. induction allocs as [| alloc allocs IH]; intros plan; simpl.
  - auto.
  - destruct (IH (AppendEvict plan alloc)) as (-> & -> & ->). auto.
Qed.

Lemma evictPlan_spec (eval : Evaluation) (allocs : list Allocation) :
  (forall node, planEvictions (evictPlan eval allocs) node
                = Alloc_ID <$> filter (fun a => Alloc_NodeID a = node) allocs)
  /\ NodeAllocation (evictPlan eval allocs) = ∅
  /\ Plan_EvalID (evictPlan eval allocs) = Eval_ID eval
  /\ Plan_Priority (evictPlan eval allocs) = Eval_Priority eval.
Proof.
  unfold evictPlan. split.
  - intros node. rewrite foldl_AppendEvict_evictions. reflexivity.
  - apply foldl_AppendEvict_frame.
Qed.

(** ** The evict-all handler *)

Lemma length_eqb_nil {A : Type} (l : list A) :
  (length l =? 0)%nat = true <-> l = [].
Proof. destruct l; simpl; split; intros; congruence. Qed.

Lemma evictJobAllocs_pass_submit (s : ServiceScheduler) (eval : Evaluation)
    (allocs : list Allocation) :
  AllocsByJob (state s) (Eval_JobID eval) = Ok allocs ->
  allocs <> [] ->
  let s1 := Printf s (LogNeedsEvictions (Eval_ID eval) (Eval_JobID eval)
                                        (length allocs)) in
  let plan := evictPlan eval allocs in
  evictJobAllocs_pass s eval
  = match planner s (submitted s) plan with
    | Fail err => FlowReturn (recordSubmit s1 plan) (Some (ErrPlanner err))
    | Ok (_, Some newState) => FlowGoto (setState (recordSubmit s1 plan) newState)
    | Ok (_, None) => FlowReturn (recordSubmit s1 plan) None
    end.
Proof.
  intros Hallocs Hne. unfold evictJobAllocs_pass. rewrite Hallocs.
  destruct (length allocs =? 0)%nat eqn:Hlen.
  - apply length_eqb_nil in Hlen. contradiction.
  - reflexivity.
Qed.

Lemma evictJobAllocs_diverges (eval : Evaluation)
    (Inv : ServiceScheduler -> Prop) :
  (forall s0, Inv s0 -> exists s1, evictJobAllocs_pass s0 eval = FlowGoto s1 /\ Inv s1) ->
  forall fuel s, Inv s -> evictJobAllocs fuel s eval = None.
Proof.
  intros Hstep fuel. induction fuel as [| fuel IH]; intros s Hs; simpl.
  - reflexivity.
  - destruct (Hstep s Hs) as (s1 & -> & Hs1). apply IH. exact Hs1.
Qed.

(** C8: [evictJobAllocs] returns nil and submits nothing when the job has no
    allocations.  Otherwise the one plan a pass submits evicts, under each
    node, exactly the ids of the job's allocations on that node and places
    nothing; when the planner answers with a new snapshot the handler adopts
    it and runs the loop again.  No counter bounds the loop: as long as
    every pass ends in a refresh it runs out of any fuel. *)
Theorem evictJobAllocs_plan (s : ServiceScheduler) (eval : Evaluation) :
  (AllocsByJob (state s) (Eval_JobID eval) = Ok [] ->
   exists s',
     submitted s' = submitted s
     /\ forall fuel, evictJobAllocs (S fuel) s eval = Some (s', Returned None))
  /\ (forall allocs,
        AllocsByJob (state s) (Eval_JobID eval) = Ok allocs ->
        allocs <> [] ->
        exists plan,
          submitted (flowSched (evictJobAllocs_pass s eval)) = submitted s ++ [plan]
          /\ (forall node,
                planEvictions plan node
                = Alloc_ID <$> filter (fun a => Alloc_NodeID a = node) allocs)
          /\ NodeAllocation plan = ∅
          /\ (forall planResult newState,
                planner s (submitted s) plan = Ok (planResult, Some newState) ->
                exists s',
                  state s' = newState
                  /\ submitted s' = submitted s ++ [plan]
                  /\ forall fuel,
                       evictJobAllocs (S fuel) s eval = evictJobAllocs fuel s' eval))
  /\ (forall Inv : ServiceScheduler -> Prop,
        Inv s ->
        (forall s0, Inv s0 ->
                    exists s1, evictJobAllocs_pass s0 eval = FlowGoto s1 /\ Inv s1) ->
        forall fuel, evictJobAllocs fuel s eval = None).
Proof.
  split; [| split].
  - intros Hnone.
    exists (Printf s (LogNeedsEvictions (Eval_ID eval) (Eval_JobID eval) 0)).
    split; [reflexivity |].
    intros fuel. simpl. unfold evictJobAllocs_pass. rewrite Hnone. reflexivity.
  - intros allocs Hallocs Hne. exists (evictPlan eval allocs).
    pose proof (evictJobAllocs_pass_submit s eval allocs Hallocs Hne) as Hpass.
    simpl in Hpass.
    destruct (evictPlan_spec eval allocs) as (Hev & Hnoalloc & _).
    split; [| split; [exact Hev | split; [exact Hnoalloc |]]].
    + rewrite Hpass.
      destruct (planner s (submitted s) (evictPlan eval allocs))
        as [[planResult [newState |]] | err]; reflexivity.
    + intros planResult newState Hreply. rewrite Hreply in Hpass.
      eexists. split; [| split]; [| | intros fuel; simpl; rewrite Hpass; reflexivity];
        reflexivity.
  - intros Inv Hs Hstep fuel.
    exact (evictJobAllocs_diverges eval Inv Hstep fuel s Hs).
Qed.

(** C10: [evictJobAllocs] does not look at the plan result.  When the planner
    answers its plan with no error and no new snapshot the handler returns
    nil whatever the result says, also when [FullCommit] reports a partial
    commit, on which the register handler jumps back to [START]. *)
Theorem evictJobAllocs_ignores_PlanResult (s : ServiceScheduler)
    (eval : Evaluation) (allocs : list Allocation) (planResult : PlanResult) :
  AllocsByJob (state s) (Eval_JobID eval) = Ok allocs ->
  allocs <> [] ->
  planner s (submitted s) (evictPlan eval allocs) = Ok (planResult, None) ->
  (exists s',
     submitted s' = submitted s ++ [evictPlan eval allocs]
     /\ forall fuel, evictJobAllocs (S fuel) s eval = Some (s', Returned None))
  /\ (forall stack plan,
        planner s (submitted s) plan = Ok (planResult, None) ->
        (FullCommit planResult plan).1.1 = false ->
        exists s', (handleJobRegister_submit s eval stack plan).2 = FlowGoto s').
Proof.
  intros Hallocs Hne Hreply. split.
  - pose proof (evictJobAllocs_pass_submit s eval allocs Hallocs Hne) as Hpass.
    simpl in Hpass. rewrite Hreply in Hpass.
    eexists. split; [| intros fuel; simpl; rewrite Hpass; reflexivity].
    reflexivity.
  - intros stack plan Hreply' Hpartial. unfold handleJobRegister_submit.
    rewrite Hreply'.
    destruct (FullCommit planResult plan) as [[fullCommit expected] actual].
    simpl in Hpartial. subst fullCommit. simpl. eexists. reflexivity.
Qed.

(** ** The placement loop *)

Lemma groupTotals_spec (taskGroup : TaskGroup) :
  groupTotals taskGroup
  = (TG_Constraints taskGroup ++ mjoin (Task_Constraints <$> TG_Tasks taskGroup),
     list_to_set (Task_Driver <$> TG_Tasks taskGroup),
     foldl addResources zeroResources (Task_Resources <$> TG_Tasks taskGroup)).
Proof.
  unfold groupTotals.
  assert (forall tasks (constr : list Constraint) (drivers : gset string) size,
    foldl (fun '(constr, drivers, size) task =>
             (constr ++ Task_Constraints task,
              {[Task_Driver task]} ∪ drivers,
              addResources size (Task_Resources task)))
          (constr, drivers, size) tasks
    = (constr ++ mjoin (Task_Constraints <$> tasks),
       list_to_set (Task_Driver <$> tasks) ∪ drivers,
       foldl addResources size (Task_Resources <$> tasks))) as Hgen.
  { induction tasks as [| task tasks IH]; intros constr drivers size; simpl.
    - rewrite app_nil_r, (left_id_L ∅ (∪)). reflexivity.
    - rewrite IH, <- app_assoc.
      rewrite (assoc_L (∪)), (comm_L (∪) (list_to_set _) {[Task_Driver task]}).
      reflexivity. }
  rewrite Hgen, (right_id_L ∅ (∪)). reflexivity.
Qed.

(** What one call of [planAllocations] leaves alone, and what it counts. *)
Lemma planAllocations_frame (place : list allocNameID) :
  forall (s : ServiceScheduler) (stack : IteratorStack) (job : Job) (plan : Plan)
         (groups : gmap string TaskGroup) s' stack' plan' err,
    planAllocations s stack job plan place groups = Some (s', stack', plan', err) ->
    err = None
    /\ NodeEvict plan' = NodeEvict plan
    /\ submitted s' = submitted s
    /\ state s' = state s
    /\ planner s' = planner s
    /\ (uuids s' + length (logger s')
        = uuids s + length (logger s) + length place)%nat.
Proof.
  induction place as [| missing place IH]; intros s stack job plan groups
    s' stack' plan' err Hrun; simpl in Hrun.
  - injection Hrun as <- <- <- <-. repeat split; simpl; lia.
  - destruct (groups !! Name missing) as [taskGroup |]; [| discriminate].
    destruct (groupTotals taskGroup) as [[constr drivers] size].
    destruct (maxScoreNext _ plan) as [[option |] it].
    + apply IH in Hrun. simpl in Hrun.
      destruct Hrun as (-> & -> & -> & -> & -> & Hcount).
      repeat split; simpl; lia.
    + apply IH in Hrun. simpl in Hrun.
      destruct Hrun as (-> & -> & -> & -> & -> & Hcount).
      repeat split. rewrite Hcount. rewrite length_app. simpl. lia.
Qed.

Lemma planAllocations_total (place : list allocNameID) :
  forall (s : ServiceScheduler) (stack : IteratorStack) (job : Job) (plan : Plan)
         (groups : gmap string TaskGroup),
    Forall (fun missing => is_Some (groups !! Name missing)) place ->
    exists s' stack' plan',
      planAllocations s stack job plan place groups = Some (s', stack', plan', None).
Proof.
  induction place as [| missing place IH]; intros s stack job plan groups Hkeys;
    simpl.
  - eauto.
  - apply Forall_cons in Hkeys as [[taskGroup ->] Hkeys].
    destruct (groupTotals taskGroup) as [[constr drivers] size].
    destruct (maxScoreNext _ plan) as [[option |] it]; apply IH; exact Hkeys.
Qed.

(** ** The diff engine *)

Lemma diffAllocs_names (job : Job) (required : gmap string TaskGroup)
    (existing : gmap string Allocation) place update evict ignore :
  diffAllocs job required existing = (place, update, evict, ignore) ->
  Forall (fun m => is_Some (required !! Name m)) (place ++ update)
  /\ Forall (fun m => exists alloc, existing !! Name m = Some alloc
                                    /\ ID m = Alloc_ID alloc) (evict ++ update).
Proof.
  unfold diffAllocs. intros [= <- <- <- <-]. split.
  - apply Forall_app. split; apply Forall_forall; intros m Hm;
      apply list_elem_of_omap in Hm as ([name tg] & Hin & Hm);
      apply elem_of_map_to_list in Hin.
    + destruct (existing !! name); [discriminate |].
      injection Hm as <-. simpl. eauto.
    + destruct (existing !! name) as [alloc |]; [| discriminate].
      destruct (groupUnchanged job tg alloc); [discriminate |].
      injection Hm as <-. simpl. eauto.
  - apply Forall_app. split; apply Forall_forall; intros m Hm.
    + apply list_elem_of_omap in Hm as ([name alloc] & Hin & Hm).
      apply elem_of_map_to_list in Hin.
      destruct (required !! name); [discriminate |].
      injection Hm as <-. simpl. eauto.
    + apply list_elem_of_omap in Hm as ([name tg] & Hin & Hm).
      apply elem_of_map_to_list in Hin.
      destruct (existing !! name) as [alloc |] eqn:Hidx; [| discriminate].
      destruct (groupUnchanged job tg alloc); [discriminate |].
      injection Hm as <-. simpl. eauto.
Qed.

Lemma addEvictsToPlan_spec (evicts : list allocNameID)
    (indexed : gmap string Allocation) (plan : Plan) :
  (forall node,
     planEvictions (addEvictsToPlan plan evicts indexed) node
     = planEvictions plan node
       ++ (Alloc_ID <$> filter (fun a => Alloc_NodeID a = node)
                               (omap (fun e => indexed !! Name e) evicts)))
  /\ NodeAllocation (addEvictsToPlan plan evicts indexed) = NodeAllocation plan.
Proof.
  unfold addEvictsToPlan. revert plan.
  induction evicts as [| evict evicts IH]; intros plan; simpl.
  - split; [intros node; rewrite app_nil_r |]; reflexivity.
  - destruct (indexed !! Name evict) as [alloc |].
    + destruct (IH (AppendEvict plan alloc)) as [Hev Hframe]. split.
      * intros node. rewrite Hev, planEvictions_AppendEvict, filter_cons.
        case_decide; [| reflexivity].
        rewrite fmap_cons, <- app_assoc. reflexivity.
      * rewrite Hframe. reflexivity.
    + apply IH.
Qed.

(** ** One pass of the register handler *)

Lemma handleJobRegister_plan_flow (s : ServiceScheduler) (eval : Evaluation) :
  match handleJobRegister_plan s eval with
  | Leaves (FlowReturn s' None) => submitted s' = submitted s
  | Leaves (FlowReturn s' (Some err)) => passError err
  | Leaves (FlowEvictAll s') => s' = s
  | Leaves (FlowGoto _) | Leaves (FlowPanic _) => False
  | ReadyToSubmit s1 _ _ _ => submitted s1 = submitted s
  end.
Proof.
  unfold handleJobRegister_plan.
  destruct (GetJobByID (state s) (Eval_JobID eval)) as [[job |] | err];
    [| reflexivity | exact I].
  destruct (size (materializeTaskGroups job) =? 0)%nat; [reflexivity |].
  destruct (AllocsByJob (state s) (Eval_JobID eval)) as [allocs | err];
    [| exact I].
  destruct (diffAllocs job (materializeTaskGroups job) (indexAllocs allocs))
    as [[[place update] evict] ignore] eqn:Hdiff.
  destruct ((length place =? 0)%nat && (length update =? 0)%nat
            && (length evict =? 0)%nat)%bool; [reflexivity |].
  destruct (iterStack _ job _) as [stack | err]; [| exact I].
  apply diffAllocs_names in Hdiff as [Hkeys _].
  match goal with
  | |- context [planAllocations ?s1 ?st ?j ?p ?pl ?g] =>
      destruct (planAllocations_total pl s1 st j p g Hkeys)
        as (s2 & stack2 & plan2 & Hrun);
      rewrite Hrun; apply planAllocations_frame in Hrun
  end.
  destruct Hrun as (_ & _ & -> & _). reflexivity.
Qed.

Lemma handleJobRegister_pass_flow (s : ServiceScheduler) (eval : Evaluation) :
  match handleJobRegister_pass s eval with
  | FlowReturn s' None => True
  | FlowReturn s' (Some err) => passError err
  | FlowGoto s' => exists plan, submitted s' = submitted s ++ [plan]
  | FlowEvictAll s' => s' = s
  | FlowPanic _ => False
  end.
Proof.
  unfold handleJobRegister_pass.
  pose proof (handleJobRegister_plan_flow s eval) as Hplan.
  destruct (handleJobRegister_plan s eval) as [s1 job stack plan | flow].
  - unfold handleJobRegister_submit.
    destruct (planner s1 (submitted s1) plan)
      as [[planResult [newState |]] | err]; simpl.
    + exists plan. rewrite Hplan. reflexivity.
    + destruct (FullCommit planResult plan) as [[[|] expected] actual]; simpl.
      * exact I.
      * exists plan. rewrite Hplan. reflexivity.
    + exact I.
  - destruct flow as [s' [err |] | s' | s' | s'];
      first [exact Hplan | exact I | contradiction].
Qed.

Lemma handleJobRegister_from_step (fuel evictFuel : nat) (attempts : Z)
    (s : ServiceScheduler) (eval : Evaluation) :
  attempts <> maxScheduleAttempts ->
  handleJobRegister_from (S fuel) evictFuel attempts s eval
  = match handleJobRegister_pass s eval with
    | FlowReturn s err => Some (s, Returned err)
    | FlowEvictAll s => evictJobAllocs evictFuel s eval
    | FlowGoto s => handleJobRegister_from fuel evictFuel (attempts + 1) s eval
    | FlowPanic s => Some (s, Panicked)
    end.
Proof.
  intros Hleft. simpl.
  destruct (Z.eqb_spec attempts maxScheduleAttempts); [contradiction | reflexivity].
Qed.

(** C5: [handleJobRegister] returns nil and hands no plan to the planner
    when the snapshot has no such job, and when the diff finds nothing to
    place, to update or to evict. *)
Theorem handleJobRegister_nothing_to_do (s : ServiceScheduler)
    (eval : Evaluation) (fuel evictFuel : nat) :
  (GetJobByID (state s) (Eval_JobID eval) = Ok None ->
   exists s',
     handleJobRegister (S fuel) evictFuel s eval = Some (s', Returned None)
     /\ submitted s' = submitted s)
  /\ (forall job allocs ignore,
        GetJobByID (state s) (Eval_JobID eval) = Ok (Some job) ->
        size (materializeTaskGroups job) <> 0%nat ->
        AllocsByJob (state s) (Eval_JobID eval) = Ok allocs ->
        diffAllocs job (materializeTaskGroups job) (indexAllocs allocs)
        = ([], [], [], ignore) ->
        exists s',
          handleJobRegister (S fuel) evictFuel s eval = Some (s', Returned None)
          /\ submitted s' = submitted s).
Proof.
  split.
  - intros Hjob. eexists. split.
    + unfold handleJobRegister. rewrite handleJobRegister_from_step by discriminate.
      unfold handleJobRegister_pass, handleJobRegister_plan. rewrite Hjob.
      reflexivity.
    + reflexivity.
  - intros job allocs ignore Hjob Hgroups Hallocs Hdiff. eexists. split.
    + unfold handleJobRegister. rewrite handleJobRegister_from_step by discriminate.
      unfold handleJobRegister_pass, handleJobRegister_plan.
      rewrite Hjob. apply Nat.eqb_neq in Hgroups. rewrite Hgroups.
      rewrite Hallocs, Hdiff. simpl. reflexivity.
    + reflexivity.
Qed.

(** ** Registering an empty job *)

Lemma materializeTaskGroups_no_instances (job : Job) :
  Forall (fun tg => TG_Count tg <= 0) (Job_TaskGroups job) ->
  materializeTaskGroups job = ∅.
Proof.
  unfold materializeTaskGroups. generalize (∅ : gmap string TaskGroup) as out.
  induction (Job_TaskGroups job) as [| tg tgs IH]; intros out Hcounts; simpl.
  - reflexivity.
  - apply Forall_cons in Hcounts as [Hcount Hcounts].
    rewrite Z2Nat.nonpos by exact Hcount. simpl. apply IH. exact Hcounts.
Qed.

Lemma evictJobAllocs_withTrigger (fuel : nat) (s : ServiceScheduler)
    (eval : Evaluation) (reason : EvalTrigger) :
  evictJobAllocs fuel s (withTrigger eval reason) = evictJobAllocs fuel s eval.
Proof.
  revert s. induction fuel as [| fuel IH]; intros s; simpl; [reflexivity |].
  change (evictJobAllocs_pass s (withTrigger eval reason))
    with (evictJobAllocs_pass s eval).
  destruct (evictJobAllocs_pass s eval); try reflexivity; apply IH.
Qed.

(** C6: a job with no instance to run (its materialization is empty, as when
    every group has count 0) is registered exactly as it is deregistered: the
    first pass of [handleJobRegister] hands over to [evictJobAllocs], and
    [Process] gives the same result for the evaluation under either
    trigger, on the same snapshot and planner. *)
Theorem register_empty_job_is_deregister (s : ServiceScheduler)
    (eval : Evaluation) (job : Job) :
  GetJobByID (state s) (Eval_JobID eval) = Ok (Some job) ->
  (Forall (fun tg => TG_Count tg <= 0) (Job_TaskGroups job) ->
   materializeTaskGroups job = ∅)
  /\ (materializeTaskGroups job = ∅ ->
      (forall fuel evictFuel,
         handleJobRegister (S fuel) evictFuel s eval
         = evictJobAllocs evictFuel s eval)
      /\ (forall fuel,
            Process fuel s (withTrigger eval EvalTriggerJobRegister)
            = Process fuel s (withTrigger eval EvalTriggerJobDeregister))).
Proof.
  intros Hjob. split; [apply materializeTaskGroups_no_instances |].
  intros Hempty.
  assert (forall reason fuel evictFuel,
            handleJobRegister (S fuel) evictFuel s (withTrigger eval reason)
            = evictJobAllocs evictFuel s (withTrigger eval reason)) as Hhand.
  { intros reason fuel evictFuel. unfold handleJobRegister.
    rewrite handleJobRegister_from_step by discriminate.
    unfold handleJobRegister_pass, handleJobRegister_plan. simpl.
    rewrite Hjob, Hempty. reflexivity. }
  split.
  - intros fuel evictFuel.
    pose proof (Hhand (Eval_TriggeredBy eval) fuel evictFuel) as Heq.
    rewrite evictJobAllocs_withTrigger in Heq. rewrite <- Heq.
    destruct eval; reflexivity.
  - intros [| fuel]; [reflexivity |].
    change (Process (S fuel) s (withTrigger eval EvalTriggerJobRegister))
      with (handleJobRegister (S fuel) (S fuel) s
                              (withTrigger eval EvalTriggerJobRegister)).
    change (Process (S fuel) s (withTrigger eval EvalTriggerJobDeregister))
      with (evictJobAllocs (S fuel) s (withTrigger eval EvalTriggerJobDeregister)).
    rewrite Hhand, !evictJobAllocs_withTrigger. reflexivity.
Qed.

(** ** After the plan is submitted *)

(** C2: when [SubmitPlan] returns no error in a pass of [handleJobRegister],
    one of three things happens.  A new snapshot is adopted as the
    scheduler's state, the context of the stack is bound to it, and the loop
    starts over; with no new snapshot and a plan that was not fully
    committed the loop starts over too; otherwise the handler returns nil.
    In none of the three does the pass return an error. *)
Theorem handleJobRegister_after_submit (s s1 : ServiceScheduler)
    (eval : Evaluation) (job : Job) (stack : IteratorStack) (plan : Plan)
    (planResult : PlanResult) (newState : option State)
    (fuel evictFuel : nat) (attempts : Z) :
  handleJobRegister_plan s eval = ReadyToSubmit s1 job stack plan ->
  planner s1 (submitted s1) plan = Ok (planResult, newState) ->
  attempts <> maxScheduleAttempts ->
  match newState with
  | Some st =>
      handleJobRegister_submit s1 eval stack plan
      = (SetState stack st, FlowGoto (setState (recordSubmit s1 plan) st))
      /\ state (setState (recordSubmit s1 plan) st) = st
      /\ StackContext (SetState stack st) = st
      /\ handleJobRegister_from (S fuel) evictFuel attempts s eval
         = handleJobRegister_from fuel evictFuel (attempts + 1)
                                  (setState (recordSubmit s1 plan) st) eval
  | None =>
      if (FullCommit planResult plan).1.1 then
        handleJobRegister_from (S fuel) evictFuel attempts s eval
        = Some (recordSubmit s1 plan, Returned None)
      else
        handleJobRegister_from (S fuel) evictFuel attempts s eval
        = handleJobRegister_from fuel evictFuel (attempts + 1)
            (Printf (recordSubmit s1 plan)
                    (LogAttempted (Eval_ID eval) (Eval_JobID eval)
                                  (FullCommit planResult plan).1.2
                                  (FullCommit planResult plan).2))
            eval
  end
  /\ (forall s' err, handleJobRegister_pass s eval <> FlowReturn s' (Some err)).
Proof.
  intros Hplan Hreply Hleft.
  rewrite !handleJobRegister_from_step by exact Hleft.
  unfold handleJobRegister_pass. rewrite Hplan.
  unfold handleJobRegister_submit. rewrite Hreply.
  destruct newState as [st |].
  - simpl. split; [auto |]. discriminate.
  - destruct (FullCommit planResult plan) as [[[|] expected] actual]; simpl.
    + split; [reflexivity |]. discriminate.
    + split; [reflexivity |]. discriminate.
Qed.

(** ** Placement never fails *)

Lemma evictJobAllocs_errors (fuel : nat) :
  forall (s : ServiceScheduler) (eval : Evaluation) s' err,
    evictJobAllocs fuel s eval = Some (s', Returned (Some err)) ->
    passError err.
Proof.
  induction fuel as [| fuel IH]; intros s eval s' err; simpl; [discriminate |].
  unfold evictJobAllocs_pass at 1.
  destruct (AllocsByJob (state s) (Eval_JobID eval)) as [allocs | e].
  - destruct (length allocs =? 0)%nat; [discriminate |].
    destruct (planner _ _ _) as [[planResult [newState |]] | e].
    + apply IH.
    + discriminate.
    + intros [= _ <-]. exact I.
  - intros [= _ <-]. exact I.
Qed.

Lemma handleJobRegister_from_errors (fuel evictFuel : nat) :
  forall (attempts : Z) (s : ServiceScheduler) (eval : Evaluation) s' err,
    handleJobRegister_from fuel evictFuel attempts s eval
    = Some (s', Returned (Some err)) ->
    passError err \/ err = ErrMaxAttempts maxScheduleAttempts.
Proof.
  induction fuel as [| fuel IH]; intros attempts s eval s' err; simpl;
    [discriminate |].
  destruct (Z.eqb_spec attempts maxScheduleAttempts) as [-> | _].
  - intros [= _ <-]. right. reflexivity.
  - pose proof (handleJobRegister_pass_flow s eval) as Hflow.
    destruct (handleJobRegister_pass s eval) as [s2 [e |] | s2 | s2 | s2].
    + intros [= _ <-]. left. exact Hflow.
    + discriminate.
    + apply IH.
    + intros Hev. left. exact (evictJobAllocs_errors _ _ _ _ _ Hev).
    + contradiction.
Qed.

(** C9: [planAllocations] has no error to return: whenever it returns, it
    returns nil, and it returns on every place list whose names are keys of
    the groups (a failed placement writes a log line and goes on).  So no
    pass of [handleJobRegister] returns the "failed to plan allocations"
    error or panics, and [Process] never returns that error. *)
Theorem planAllocations_returns_nil (s : ServiceScheduler) (job : Job)
    (groups : gmap string TaskGroup) (eval : Evaluation) :
  (forall stack plan place s' stack' plan' err,
     planAllocations s stack job plan place groups = Some (s', stack', plan', err) ->
     err = None)
  /\ (forall stack plan place,
        Forall (fun missing => is_Some (groups !! Name missing)) place ->
        exists s' stack' plan',
          planAllocations s stack job plan place groups
          = Some (s', stack', plan', None))
  /\ (forall s' e,
        handleJobRegister_pass s eval <> FlowReturn s' (Some (ErrPlanAllocs e)))
  /\ (forall s', handleJobRegister_pass s eval <> FlowPanic s')
  /\ (forall fuel s' e,
        Process fuel s eval <> Some (s', Returned (Some (ErrPlanAllocs e)))).
Proof.
  split; [| split; [| split; [| split]]].
  - intros stack plan place s' stack' plan' err Hrun.
    apply planAllocations_frame in Hrun. apply Hrun.
  - intros stack plan place Hkeys. apply planAllocations_total. exact Hkeys.
  - intros s' e Hpass. pose proof (handleJobRegister_pass_flow s eval) as Hflow.
    rewrite Hpass in Hflow. exact Hflow.
  - intros s' Hpass. pose proof (handleJobRegister_pass_flow s eval) as Hflow.
    rewrite Hpass in Hflow. exact Hflow.
  - intros fuel s' e. unfold Process, handleJobRegister, handleNodeUpdate.
    destruct (Eval_TriggeredBy eval); intros Hrun.
    + apply handleJobRegister_from_errors in Hrun as [[] | [=]].
    + apply evictJobAllocs_errors in Hrun as [].
    + discriminate.
    + discriminate.
Qed.

(** ** Each missing name *)

Lemma planAllocs_AppendAlloc (plan : Plan) (alloc : Allocation) (node : string) :
  planAllocs (AppendAlloc plan alloc) node
  = if decide (Alloc_NodeID alloc = node)
    then planAllocs plan node ++ [alloc]
    else planAllocs plan node.
Proof.
  unfold planAllocs at 1. simpl. case_decide as Hnode.
  - subst node. rewrite lookup_insert_eq. reflexivity.
  - rewrite lookup_insert_ne by assumption. reflexivity.
Qed.

(** C4: for the name at the head of the place list, [planAllocations]
    resets the max-score selection and hands the driver filter the set of
    the drivers of the group's tasks, the constraint filter the group's
    constraints followed by each task's, and the bin-pack iterator the sum of
    the tasks' resources.  If the selection yields a node, an allocation with
    a newly drawn id, that name, the node's id, the job, the summed resources
    and status pending is appended to the plan under that node; if it yields
    nothing, the name is logged and the plan is left as it is.  Either way
    the loop goes on with the remaining names, and no error is returned. *)
Theorem planAllocations_each_name (s : ServiceScheduler) (stack : IteratorStack)
    (job : Job) (plan : Plan) (missing : allocNameID) (place : list allocNameID)
    (groups : gmap string TaskGroup) (taskGroup : TaskGroup) :
  groups !! Name missing = Some taskGroup ->
  let drivers : gset string := list_to_set (Task_Driver <$> TG_Tasks taskGroup) in
  let constr :=
    TG_Constraints taskGroup ++ mjoin (Task_Constraints <$> TG_Tasks taskGroup) in
  let size :=
    foldl addResources zeroResources (Task_Resources <$> TG_Tasks taskGroup) in
  let stack1 :=
    SetResources (SetConstraints (SetDrivers (resetMaxScore stack) drivers) constr)
                 size in
  (MaxScore stack1 = resetIterState (MaxScore stack)
   /\ TaskGroupDrivers stack1 = drivers
   /\ TaskGroupConstraint stack1 = constr
   /\ BinPack_resources (BinPack stack1) = Some size)
  /\ match maxScoreNext stack1 plan with
     | (Some option, it) =>
         let alloc :=
           {| Alloc_ID := GenerateUUID (uuids s);
              Alloc_Name := Name missing;
              Alloc_NodeID := Node_ID (RankedNode_Node option);
              Alloc_JobID := Job_ID job;
              Alloc_Job := job;
              Alloc_Resources := size;
              Alloc_Status := AllocStatusPending |} in
         planAllocations s stack job plan (missing :: place) groups
         = planAllocations (drawUUID s).2 (afterNext stack1 it) job
                           (AppendAlloc plan alloc) place groups
         /\ planAllocs (AppendAlloc plan alloc) (Node_ID (RankedNode_Node option))
            = planAllocs plan (Node_ID (RankedNode_Node option)) ++ [alloc]
         /\ uuids (drawUUID s).2 = S (uuids s)
     | (None, it) =>
         planAllocations s stack job plan (missing :: place) groups
         = planAllocations (Printf s (LogFailedPlace missing (Job_ID job)))
                           (afterNext stack1 it) job plan place groups
     end
  /\ (forall s' stack' plan' err,
        planAllocations s stack job plan (missing :: place) groups
        = Some (s', stack', plan', err) ->
        err = None).
Proof.
  intros Hgroup drivers constr size stack1.
  split; [repeat split |]. split.
  - simpl. rewrite Hgroup, groupTotals_spec.
    fold drivers constr size stack1.
    destruct (maxScoreNext stack1 plan) as [[option |] it].
    + split; [reflexivity |]. split; [| reflexivity].
      rewrite planAllocs_AppendAlloc. simpl.
      case_decide; [reflexivity | contradiction].
    + reflexivity.
  - intros s' stack' plan' err Hrun.
    apply planAllocations_frame in Hrun. apply Hrun.
Qed.

(** ** Updates are evictions followed by placements *)

Lemma planAllocations_allocs (place : list allocNameID) :
  forall (s : ServiceScheduler) (stack : IteratorStack) (job : Job) (plan : Plan)
         (groups : gmap string TaskGroup) s' stack' plan' err,
    planAllocations s stack job plan place groups = Some (s', stack', plan', err) ->
    forall node alloc,
      alloc ∈ planAllocs plan' node ->
      alloc ∈ planAllocs plan node
      \/ exists missing,
           missing ∈ place /\ Alloc_Name alloc = Name missing
           /\ Alloc_NodeID alloc = node
           /\ Alloc_Status alloc = AllocStatusPending.
Proof.
  induction place as [| missing place IH]; intros s stack job plan groups
    s' stack' plan' err Hrun node alloc Hin; simpl in Hrun.
  - injection Hrun as <- <- <- <-. left. exact Hin.
  - destruct (groups !! Name missing) as [taskGroup |]; [| discriminate].
    destruct (groupTotals taskGroup) as [[constr drivers] size].
    destruct (maxScoreNext _ plan) as [[option |] it].
    + destruct (IH _ _ _ _ _ _ _ _ _ Hrun node alloc Hin)
        as [Hold | (m & Hm & Hname & Hnode & Hstatus)].
      * rewrite planAllocs_AppendAlloc in Hold. simpl in Hold.
        case_decide as Hhere; [| left; exact Hold].
        apply elem_of_app in Hold as [Hold | Hnew]; [left; exact Hold |].
        apply list_elem_of_singleton in Hnew. subst alloc. right.
        exists missing. repeat split; [left | exact Hhere].
      * right. exists m. repeat split; [right | | |]; assumption.
    + destruct (IH _ _ _ _ _ _ _ _ _ Hrun node alloc Hin)
        as [Hold | (m & Hm & Hname & Hnode & Hstatus)].
      * left. exact Hold.
      * right. exists m. repeat split; [right | | |]; assumption.
Qed.

Lemma omap_indexed_Forall2 (indexed : gmap string Allocation)
    (names : list allocNameID) :
  Forall (fun m => exists alloc, indexed !! Name m = Some alloc
                                 /\ ID m = Alloc_ID alloc) names ->
  Forall2 (fun m alloc => indexed !! Name m = Some alloc /\ ID m = Alloc_ID alloc)
          names (omap (fun m => indexed !! Name m) names).
Proof.
  induction names as [| m names IH]; intros Hall; simpl.
  - constructor.
  - apply Forall_cons in Hall as [(alloc & Hidx & Hid) Hall].
    rewrite Hidx. constructor; [split; assumption | apply IH; exact Hall].
Qed.

Lemma nothing_to_do_false {A B C : Type} (place : list A) (update : list B)
    (evict : list C) :
  ~ (place = [] /\ update = [] /\ evict = []) ->
  ((length place =? 0)%nat && (length update =? 0)%nat
   && (length evict =? 0)%nat)%bool = false.
Proof.
  intros Hsome. destruct place, update, evict; simpl; try reflexivity.
  exfalso. apply Hsome. auto.
Qed.

(** C3: in a pass of [handleJobRegister] that has something to do, the
    allocation of every name of the update set is appended to the plan as an
    eviction, after those of the evict set, each one entry under its node,
    and the update set is appended to the place set that [planAllocations]
    walks: every name placed or updated is attempted once (it draws an id for
    a pending allocation or writes a failure line), in the plan that carries
    the evictions. *)
Theorem register_update_evicts_and_places (s : ServiceScheduler)
    (eval : Evaluation) (job : Job) (allocs : list Allocation)
    (place update evict ignore : list allocNameID) (nodes : list Node) :
  GetJobByID (state s) (Eval_JobID eval) = Ok (Some job) ->
  size (materializeTaskGroups job) <> 0%nat ->
  AllocsByJob (state s) (Eval_JobID eval) = Ok allocs ->
  diffAllocs job (materializeTaskGroups job) (indexAllocs allocs)
  = (place, update, evict, ignore) ->
  ~ (place = [] /\ update = [] /\ evict = []) ->
  baseNodes s job = Ok nodes ->
  let groups := materializeTaskGroups job in
  let indexed := indexAllocs allocs in
  let evicted := omap (fun m => indexed !! Name m) (evict ++ update) in
  let s1 := Printf s (LogNeeds (Eval_ID eval) (Eval_JobID eval)
                               (length place) (length update)
                               (length evict) (length ignore)) in
  Forall2 (fun m alloc => indexed !! Name m = Some alloc /\ ID m = Alloc_ID alloc)
          (evict ++ update) evicted
  /\ exists plan0 stack0 s2 stack2 plan2,
       (forall node,
          planEvictions plan0 node
          = Alloc_ID <$> filter (fun a => Alloc_NodeID a = node) evicted)
       /\ NodeAllocation plan0 = ∅
       /\ iterStack s1 job plan0 = Ok stack0
       /\ planAllocations s1 stack0 job plan0 (place ++ update) groups
          = Some (s2, stack2, plan2, None)
       /\ handleJobRegister_plan s eval = ReadyToSubmit s2 job stack2 plan2
       /\ NodeEvict plan2 = NodeEvict plan0
       /\ (uuids s2 + length (logger s2)
           = uuids s1 + length (logger s1) + length place + length update)%nat
       /\ (forall node alloc,
             alloc ∈ planAllocs plan2 node ->
             exists missing,
               missing ∈ place ++ update /\ Alloc_Name alloc = Name missing
               /\ Alloc_NodeID alloc = node
               /\ Alloc_Status alloc = AllocStatusPending).
Proof.
  intros Hjob Hgroups Hallocs Hdiff Hsome Hnodes groups indexed evicted s1.
  destruct (diffAllocs_names _ _ _ _ _ _ _ Hdiff) as [Hkeys Hidx].
  split; [apply omap_indexed_Forall2; exact Hidx |].
  set (plan0 := addEvictsToPlan (addEvictsToPlan (MakePlan eval job) evict indexed)
                                update indexed).
  assert (exists stack0, iterStack s1 job plan0 = Ok stack0) as [stack0 Hstack].
  { unfold iterStack.
    change (baseNodes s1 job) with (baseNodes s job). rewrite Hnodes. eauto. }
  destruct (planAllocations_total (place ++ update) s1 stack0 job plan0 groups Hkeys)
    as (s2 & stack2 & plan2 & Hrun).
  exists plan0, stack0, s2, stack2, plan2.
  destruct (addEvictsToPlan_spec update indexed
              (addEvictsToPlan (MakePlan eval job) evict indexed)) as [Hev2 Hfr2].
  destruct (addEvictsToPlan_spec evict indexed (MakePlan eval job)) as [Hev1 Hfr1].
  split; [| split; [| split; [exact Hstack | split; [exact Hrun |]]]].
  - intros node. unfold plan0, evicted.
    rewrite Hev2, Hev1, omap_app, filter_app, fmap_app. reflexivity.
  - unfold plan0. rewrite Hfr2, Hfr1. reflexivity.
  - split.
    + unfold handleJobRegister_plan. rewrite Hjob.
      apply Nat.eqb_neq in Hgroups. rewrite Hgroups, Hallocs, Hdiff.
      rewrite (nothing_to_do_false _ _ _ Hsome).
      fold indexed. fold plan0. fold s1. rewrite Hstack.
      fold groups. rewrite Hrun. reflexivity.
    + pose proof (planAllocations_allocs _ _ _ _ _ _ _ _ _ _ Hrun) as Hnew.
      apply planAllocations_frame in Hrun.
      destruct Hrun as (_ & Hevict & _ & _ & _ & Hcount).
      split; [exact Hevict |]. split.
      * rewrite Hcount, length_app. lia.
      * intros node alloc Hin. destruct (Hnew node alloc Hin) as [Hold | Hnamed].
        -- unfold planAllocs in Hold.
           assert (NodeAllocation plan0 = ∅) as Hnone
               by (unfold plan0; rewrite Hfr2, Hfr1; reflexivity).
           rewrite Hnone, lookup_empty in Hold. simpl in Hold.
           apply elem_of_nil in Hold. contradiction.
        -- exact Hnamed.
Qed.

(** ** The attempt budget *)

Lemma restarts_submitted (eval : Evaluation) (k : nat) (s s' : ServiceScheduler) :
  restarts eval k s s' ->
  length (submitted s') = (length (submitted s) + k)%nat.
Proof.
  induction 1 as [s | k s s1 s2 Hpass _ IH].
  - lia.
  - pose proof (handleJobRegister_pass_flow s eval) as Hflow.
    rewrite Hpass in Hflow. destruct Hflow as [plan Hplan].
    rewrite IH, Hplan, length_app. simpl. lia.
Qed.

Lemma handleJobRegister_from_exhausts (eval : Evaluation) (evictFuel k : nat)
    (s s' : ServiceScheduler) :
  restarts eval k s s' ->
  forall fuel,
    (k < fuel)%nat ->
    (k <= 5)%nat ->
    handleJobRegister_from fuel evictFuel (5 - Z.of_nat k) s eval
    = Some (s', Returned (Some (ErrMaxAttempts 5))).
Proof.
  induction 1 as [s | k s s1 s2 Hpass _ IH]; intros [| fuel] Hfuel Hk;
    try lia.
  - reflexivity.
  - rewrite handleJobRegister_from_step by (unfold maxScheduleAttempts; lia).
    rewrite Hpass.
    replace (5 - Z.of_nat (S k) + 1) with (5 - Z.of_nat k) by lia.
    apply IH; lia.
Qed.

Lemma handleJobRegister_from_cases (eval : Evaluation) (evictFuel k : nat) :
  forall (fuel : nat) (s : ServiceScheduler),
    (k <= 5)%nat ->
    (k < fuel)%nat ->
    exists j s1,
      (j <= k)%nat /\ restarts eval j s s1
      /\ ((j = k
           /\ handleJobRegister_from fuel evictFuel (5 - Z.of_nat k) s eval
              = Some (s1, Returned (Some (ErrMaxAttempts 5))))
          \/ ((j < k)%nat
              /\ exists s2 err,
                   handleJobRegister_pass s1 eval = FlowReturn s2 err
                   /\ handleJobRegister_from fuel evictFuel (5 - Z.of_nat k) s eval
                      = Some (s2, Returned err))
          \/ ((j < k)%nat
              /\ handleJobRegister_pass s1 eval = FlowEvictAll s1
              /\ handleJobRegister_from fuel evictFuel (5 - Z.of_nat k) s eval
                 = evictJobAllocs evictFuel s1 eval)).
Proof.
  induction k as [| k IH]; intros [| fuel] s Hk Hfuel; try lia.
  - exists 0%nat, s. split; [lia |]. split; [constructor |].
    left. split; reflexivity.
  - rewrite handleJobRegister_from_step by (unfold maxScheduleAttempts; lia).
    replace (5 - Z.of_nat (S k) + 1) with (5 - Z.of_nat k) by lia.
    pose proof (handleJobRegister_pass_flow s eval) as Hflow.
    destruct (handleJobRegister_pass s eval) as [s2 err | s2 | s2 | s2] eqn:Hpass.
    + exists 0%nat, s. split; [lia |]. split; [constructor |].
      right. left. split; [lia |]. exists s2, err. split; [exact Hpass | reflexivity].
    + destruct (IH fuel s2) as (j & s1 & Hj & Hrest & Hcases); [lia | lia |].
      exists (S j), s1. split; [lia |].
      split; [exact (restarts_more eval j s s2 s1 Hpass Hrest) |].
      destruct Hcases as [[-> Hrun] | [[Hlt Hrun] | [Hlt Hrun]]].
      * left. split; [reflexivity | exact Hrun].
      * right. left. split; [lia | exact Hrun].
      * right. right. split; [lia | exact Hrun].
    + subst s2. exists 0%nat, s. split; [lia |]. split; [constructor |].
      right. right. split; [lia |]. split; [exact Hpass | reflexivity].
    + contradiction.
Qed.

(** C1, as the code has it: with fuel for six arrivals at [START], the loop
    of [handleJobRegister] makes at most [maxScheduleAttempts] = 5 passes,
    whatever the planner answers, each restart having submitted one plan.
    After five passes that all ended in [goto START] it returns the
    exhausted-attempts error; before that it returns what a pass returns, or
    it hands over to [evictJobAllocs], whose loop alone decides whether the
    call returns. *)
Theorem handleJobRegister_attempts (s : ServiceScheduler) (eval : Evaluation)
    (fuel evictFuel : nat) :
  (6 <= fuel)%nat ->
  (exists k s1,
     (k <= 5)%nat /\ restarts eval k s s1
     /\ length (submitted s1) = (length (submitted s) + k)%nat
     /\ ((k = 5%nat
          /\ handleJobRegister fuel evictFuel s eval
             = Some (s1, Returned (Some (ErrMaxAttempts maxScheduleAttempts))))
         \/ ((k < 5)%nat
             /\ exists s2 err,
                  handleJobRegister_pass s1 eval = FlowReturn s2 err
                  /\ handleJobRegister fuel evictFuel s eval
                     = Some (s2, Returned err))
         \/ ((k < 5)%nat
             /\ handleJobRegister_pass s1 eval = FlowEvictAll s1
             /\ handleJobRegister fuel evictFuel s eval
                = evictJobAllocs evictFuel s1 eval)))
  /\ (forall s5,
        restarts eval 5 s s5 ->
        handleJobRegister fuel evictFuel s eval
        = Some (s5, Returned (Some (ErrMaxAttempts maxScheduleAttempts)))).
Proof.
  intros Hfuel. unfold handleJobRegister. split.
  - destruct (handleJobRegister_from_cases eval evictFuel 5 fuel s)
      as (k & s1 & Hk & Hrest & Hcases); [lia | lia |].
    exists k, s1. split; [exact Hk |]. split; [exact Hrest |].
    split; [exact (restarts_submitted _ _ _ _ Hrest) |]. exact Hcases.
  - intros s5 Hrest.
    exact (handleJobRegister_from_exhausts eval evictFuel 5 s s5 Hrest fuel
             ltac:(lia) ltac:(lia)).
Qed.

(** * Further properties of the scheduler *)

(** ** The base nodes *)

Lemma baseNodes_from_ok (st : State) (dcs : list string) :
  forall (out nodes : list Node),
    baseNodes_from st dcs out = Ok nodes
    <-> exists found,
          Forall2 (fun dc iter =>
                     NodesByDatacenterStatus st dc NodeStatusReady = Ok iter)
                  dcs found
          /\ nodes = out ++ mjoin found.
Proof.
  induction dcs as [| dc dcs IH]; intros out nodes; simpl.
  - split.
    + intros [= <-]. exists []. split; [constructor |].
      simpl. rewrite app_nil_r. reflexivity.
    + intros (found & Hall & ->). apply Forall2_nil_inv_l in Hall as ->.
      simpl. rewrite app_nil_r. reflexivity.
  - destruct (NodesByDatacenterStatus st dc NodeStatusReady) as [iter | err] eqn:Hdc.
    + rewrite IH. split.
      * intros (found & Hall & ->). exists (iter :: found).
        split; [constructor; assumption |].
        simpl. rewrite app_assoc. reflexivity.
      * intros (found & Hall & ->).
        apply Forall2_cons_inv_l in Hall as (iter' & found' & Hhead & Htail & ->).
        rewrite Hdc in Hhead. injection Hhead as <-.
        exists found'. split; [exact Htail |].
        simpl. rewrite app_assoc. reflexivity.
    + split; [discriminate |]. intros (found & Hall & _).
      apply Forall2_cons_inv_l in Hall as (iter' & found' & Hhead & _).
      rewrite Hdc in Hhead. discriminate.
Qed.

Lemma baseNodes_from_fail (st : State) (dcs : list string) :
  forall (out : list Node) (err : GoError),
    baseNodes_from st dcs out = Fail err
    <-> exists pre dc post found,
          dcs = pre ++ dc :: post
          /\ Forall2 (fun dc iter =>
                        NodesByDatacenterStatus st dc NodeStatusReady = Ok iter)
                     pre found
          /\ NodesByDatacenterStatus st dc NodeStatusReady = Fail err.
Proof.
  induction dcs as [| dc dcs IH]; intros out err; simpl.
  - split; [discriminate |]. intros (pre & dc & post & found & Hsplit & _).
    destruct pre; discriminate.
  - destruct (NodesByDatacenterStatus st dc NodeStatusReady) as [iter | err'] eqn:Hdc.
    + rewrite IH. split.
      * intros (pre & dc' & post & found & -> & Hall & Hfail).
        exists (dc :: pre), dc', post, (iter :: found).
        split; [reflexivity |]. split; [constructor; assumption | exact Hfail].
      * intros (pre & dc' & post & found & Hsplit & Hall & Hfail).
        destruct pre as [| dc0 pre]; simpl in Hsplit; injection Hsplit as <- ->.
        -- rewrite Hdc in Hfail. discriminate.
        -- apply Forall2_cons_inv_l in Hall as (iter' & found' & _ & Htail & ->).
           exists pre, dc', post, found'. auto.
    + split.
      * intros [= <-]. exists [], dc, dcs, []. split; [reflexivity |].
        split; [constructor | exact Hdc].
      * intros (pre & dc' & post & found & Hsplit & Hall & Hfail).
        destruct pre as [| dc0 pre]; simpl in Hsplit; injection Hsplit as <- ->.
        -- rewrite Hdc in Hfail. exact Hfail.
        -- apply Forall2_cons_inv_l in Hall as (iter' & found' & Hhead & _).
           rewrite Hdc in Hhead. discriminate.
Qed.

(** X1: [baseNodes] succeeds exactly when the ready-node lookup succeeds for
    every datacenter of the job, and then yields the nodes found, datacenter
    after datacenter in the job's order; it fails exactly with the error of
    the first datacenter whose lookup fails.  A job with no datacenter has
    no base nodes, and a datacenter listed twice contributes its nodes
    twice: nothing is deduplicated. *)
Theorem baseNodes_spec (s : ServiceScheduler) (job : Job) :
  (forall nodes,
     baseNodes s job = Ok nodes
     <-> exists found,
           Forall2 (fun dc iter =>
                      NodesByDatacenterStatus (state s) dc NodeStatusReady = Ok iter)
                   (Job_Datacenters job) found
           /\ nodes = mjoin found)
  /\ (forall err,
        baseNodes s job = Fail err
        <-> exists pre dc post found,
              Job_Datacenters job = pre ++ dc :: post
              /\ Forall2 (fun dc iter =>
                            NodesByDatacenterStatus (state s) dc NodeStatusReady
                            = Ok iter)
                         pre found
              /\ NodesByDatacenterStatus (state s) dc NodeStatusReady = Fail err)
  /\ (Job_Datacenters job = [] -> baseNodes s job = Ok [])
  /\ (forall dc iter,
        Job_Datacenters job = [dc; dc] ->
        NodesByDatacenterStatus (state s) dc NodeStatusReady = Ok iter ->
        baseNodes s job = Ok (iter ++ iter)).
Proof.
  unfold baseNodes. split; [| split; [| split]].
  - intros nodes. apply baseNodes_from_ok.
  - intros err. apply baseNodes_from_fail.
  - intros ->. reflexivity.
  - intros dc iter -> Hdc. simpl. rewrite Hdc. reflexivity.
Qed.

(** ** The floor of the limit *)

Lemma stackLimit_floor (nodes : list Node) :
  2 <= stackLimit nodes
  /\ (stackLimit nodes = 2
      \/ stackLimit nodes = ceilLog2 (Z.of_nat (length nodes))).
Proof.
  unfold stackLimit.
  destruct (0 <? Z.of_nat (length nodes))%Z; [| split; [lia | left; reflexivity]].
  destruct (Z.ltb_spec 2 (ceilLog2 (Z.of_nat (length nodes)))).
  - split; [lia | right; reflexivity].
  - split; [lia | left; reflexivity].
Qed.

(** X2: whatever the float logarithm yields, the limit of a stack that
    [iterStack] assembles is at least 2, and it is 2 or the value of the
    logarithm pipeline on the number of base nodes; the limit depends on
    the base nodes through their number only, and with an exact pipeline it
    does not shrink when the number of base nodes grows. *)
Theorem iterStack_limit_floor (s : ServiceScheduler) (job : Job) (plan : Plan) :
  match iterStack s job plan with
  | Ok stack =>
      2 <= Limit stack
      /\ (Limit stack = 2
          \/ Limit stack = ceilLog2 (Z.of_nat (length (BaseNodes stack))))
      /\ (forall s' job' plan' stack',
            iterStack s' job' plan' = Ok stack' ->
            (length (BaseNodes stack') = length (BaseNodes stack) ->
             Limit stack' = Limit stack)
            /\ (ceilLog2_exact ->
                (length (BaseNodes stack) <= length (BaseNodes stack'))%nat ->
                Limit stack <= Limit stack'))
  | Fail err => baseNodes s job = Fail err
  end.
Proof.
  destruct (iterStack s job plan) as [stack | err] eqn:Hstack.
  - destruct (iterStack_fields _ _ _ _ Hstack) as (_ & Hlimit & _).
    rewrite Hlimit. destruct (stackLimit_floor (BaseNodes stack)) as [Hfloor Hor].
    split; [exact Hfloor |]. split; [exact Hor |].
    intros s' job' plan' stack' Hstack'.
    destruct (iterStack_fields _ _ _ _ Hstack') as (_ & Hlimit' & _).
    rewrite Hlimit'. split.
    + intros Hsame. unfold stackLimit. rewrite Hsame. reflexivity.
    + intros Hexact Hmore. rewrite !(stackLimit_spec _ Hexact).
      apply Z.max_le_compat_l, Z.log2_up_le_mono. lia.
  - unfold iterStack in Hstack.
    destruct (baseNodes s job) as [nodes | err']; [discriminate |].
    injection Hstack as ->. reflexivity.
Qed.

(** ** Failed reads and a failing planner *)

(** X3: a failed read of the snapshot ends [handleJobRegister] at once with
    the error wrapped for the read that failed (the job, its allocations, or
    the ready nodes behind the stack) and with no plan submitted; the first
    two leave the scheduler as it was, the third has only logged the diff. *)
Theorem handleJobRegister_read_errors (s : ServiceScheduler) (eval : Evaluation)
    (fuel evictFuel : nat) :
  (forall err,
     GetJobByID (state s) (Eval_JobID eval) = Fail err ->
     handleJobRegister (S fuel) evictFuel s eval
     = Some (s, Returned (Some (ErrGetJob (Eval_JobID eval) err))))
  /\ (forall job err,
        GetJobByID (state s) (Eval_JobID eval) = Ok (Some job) ->
        size (materializeTaskGroups job) <> 0%nat ->
        AllocsByJob (state s) (Eval_JobID eval) = Fail err ->
        handleJobRegister (S fuel) evictFuel s eval
        = Some (s, Returned (Some (ErrGetAllocs (Eval_JobID eval) err))))
  /\ (forall job allocs place update evict ignore err,
        GetJobByID (state s) (Eval_JobID eval) = Ok (Some job) ->
        size (materializeTaskGroups job) <> 0%nat ->
        AllocsByJob (state s) (Eval_JobID eval) = Ok allocs ->
        diffAllocs job (materializeTaskGroups job) (indexAllocs allocs)
        = (place, update, evict, ignore) ->
        ~ (place = [] /\ update = [] /\ evict = []) ->
        baseNodes s job = Fail err ->
        handleJobRegister (S fuel) evictFuel s eval
        = Some (Printf s (LogNeeds (Eval_ID eval) (Eval_JobID eval)
                                   (length place) (length update)
                                   (length evict) (length ignore)),
                Returned (Some (ErrIterStack err)))).
Proof.
  unfold handleJobRegister. split; [| split].
  - intros err Hjob. rewrite handleJobRegister_from_step by discriminate.
    unfold handleJobRegister_pass, handleJobRegister_plan. rewrite Hjob.
    reflexivity.
  - intros job err Hjob Hgroups Hallocs.
    rewrite handleJobRegister_from_step by discriminate.
    unfold handleJobRegister_pass, handleJobRegister_plan. rewrite Hjob.
    apply Nat.eqb_neq in Hgroups. rewrite Hgroups, Hallocs. reflexivity.
  - intros job allocs place update evict ignore err Hjob Hgroups Hallocs Hdiff
      Hsome Hnodes.
    rewrite handleJobRegister_from_step by discriminate.
    unfold handleJobRegister_pass, handleJobRegister_plan. rewrite Hjob.
    apply Nat.eqb_neq in Hgroups. rewrite Hgroups, Hallocs, Hdiff.
    rewrite (nothing_to_do_false _ _ _ Hsome).
    unfold iterStack.
    match goal with
    | |- context [baseNodes (Printf s ?line) job] =>
        change (baseNodes (Printf s line) job) with (baseNodes s job)
    end.
    rewrite Hnodes. reflexivity.
Qed.

(** X4: an error of [SubmitPlan] is returned as it came, by either handler,
    right after the one plan of that pass was submitted: there is no retry
    on a planner error. *)
Theorem planner_error_is_returned (s : ServiceScheduler) (eval : Evaluation)
    (fuel evictFuel : nat) :
  (forall s1 job stack plan err,
     handleJobRegister_plan s eval = ReadyToSubmit s1 job stack plan ->
     planner s1 (submitted s1) plan = Fail err ->
     handleJobRegister (S fuel) evictFuel s eval
     = Some (recordSubmit s1 plan, Returned (Some (ErrPlanner err)))
     /\ submitted (recordSubmit s1 plan) = submitted s ++ [plan])
  /\ (forall allocs err,
        AllocsByJob (state s) (Eval_JobID eval) = Ok allocs ->
        allocs <> [] ->
        planner s (submitted s) (evictPlan eval allocs) = Fail err ->
        exists s',
          evictJobAllocs (S fuel) s eval
          = Some (s', Returned (Some (ErrPlanner err)))
          /\ submitted s' = submitted s ++ [evictPlan eval allocs]
          /\ state s' = state s).
Proof.
  split.
  - intros s1 job stack plan err Hplan Hreply. split.
    + unfold handleJobRegister.
      rewrite handleJobRegister_from_step by discriminate.
      unfold handleJobRegister_pass. rewrite Hplan.
      unfold handleJobRegister_submit. rewrite Hreply. reflexivity.
    + pose proof (handleJobRegister_plan_flow s eval) as Hflow.
      rewrite Hplan in Hflow. simpl. rewrite Hflow. reflexivity.
  - intros allocs err Hallocs Hne Hreply.
    pose proof (evictJobAllocs_pass_submit s eval allocs Hallocs Hne) as Hpass.
    simpl in Hpass. rewrite Hreply in Hpass.
    eexists. split; [simpl; rewrite Hpass; reflexivity |].
    split; reflexivity.
Qed.

(** ** The placements of one call *)

Lemma planAllocations_trace (place : list allocNameID) :
  forall (s : ServiceScheduler) (stack : IteratorStack) (job : Job) (plan : Plan)
         (groups : gmap string TaskGroup) s' stack' plan' err,
    planAllocations s stack job plan place groups = Some (s', stack', plan', err) ->
    exists (placed : list Allocation) (failed : list allocNameID),
      (forall node,
         planAllocs plan' node
         = planAllocs plan node ++ filter (fun a => Alloc_NodeID a = node) placed)
      /\ Alloc_ID <$> placed = GenerateUUID <$> seq (uuids s) (length placed)
      /\ uuids s' = (uuids s + length placed)%nat
      /\ logger s'
         = logger s ++ ((fun m => LogFailedPlace m (Job_ID job)) <$> failed)
      /\ sublist (Alloc_Name <$> placed) (Name <$> place)
      /\ sublist failed place
      /\ (length placed + length failed = length place)%nat
      /\ Forall (fun a =>
                   Alloc_Job a = job /\ Alloc_JobID a = Job_ID job
                   /\ Alloc_Status a = AllocStatusPending
                   /\ exists tg, groups !! Alloc_Name a = Some tg
                                 /\ Alloc_Resources a = (groupTotals tg).2)
                placed
      /\ Plan_EvalID plan' = Plan_EvalID plan
      /\ Plan_Priority plan' = Plan_Priority plan.
Proof.
  induction place as [| missing place IH]; intros s stack job plan groups
    s' stack' plan' err Hrun; simpl in Hrun.
  - injection Hrun as <- <- <- <-. exists [], []. simpl.
    repeat split; try constructor; try lia.
    + intros node. rewrite app_nil_r. reflexivity.
    + rewrite app_nil_r. reflexivity.
  - destruct (groups !! Name missing) as [taskGroup |] eqn:Hgroup; [| discriminate].
    destruct (groupTotals taskGroup) as [[constr drivers] size] eqn:Htotals.
    destruct (maxScoreNext _ plan) as [[option |] it].
    + apply IH in Hrun
        as (placed & failed & Hallocs & Hids & Huuids & Hlog & Hnames & Hfailed
            & Hlen & Hall & Heval & Hprio).
      simpl in Hallocs, Huuids, Hlog, Heval, Hprio.
      match type of Hallocs with
      | context [AppendAlloc plan ?a] => exists (a :: placed), failed
      end.
      split; [| repeat split].
      * intros node. rewrite Hallocs, planAllocs_AppendAlloc, filter_cons. simpl.
        case_decide; [| reflexivity]. rewrite <- app_assoc. reflexivity.
      * rewrite fmap_cons, Hids. reflexivity.
      * simpl. lia.
      * exact Hlog.
      * simpl. apply sublist_skip. exact Hnames.
      * apply sublist_cons. exact Hfailed.
      * simpl. lia.
      * constructor; [| exact Hall]. simpl. repeat split.
        exists taskGroup. rewrite Htotals. split; [exact Hgroup | reflexivity].
      * exact Heval.
      * exact Hprio.
    + apply IH in Hrun
        as (placed & failed & Hallocs & Hids & Huuids & Hlog & Hnames & Hfailed
            & Hlen & Hall & Heval & Hprio).
      simpl in Hallocs, Huuids, Hlog.
      exists placed, (missing :: failed).
      split; [exact Hallocs | repeat split]; try assumption.
      * rewrite Hlog, <- app_assoc. reflexivity.
      * simpl. apply sublist_cons. exact Hnames.
      * apply sublist_skip. exact Hfailed.
      * simpl. lia.
Qed.

Lemma planAllocations_panics (place : list allocNameID) :
  forall (s : ServiceScheduler) (stack : IteratorStack) (job : Job) (plan : Plan)
         (groups : gmap string TaskGroup),
    planAllocations s stack job plan place groups = None ->
    exists missing, missing ∈ place /\ groups !! Name missing = None.
Proof.
  induction place as [| missing place IH]; intros s stack job plan groups Hrun;
    simpl in Hrun; [discriminate |].
  destruct (groups !! Name missing) as [taskGroup |] eqn:Hgroup.
  - destruct (groupTotals taskGroup) as [[constr drivers] size].
    destruct (maxScoreNext _ plan) as [[option |] it];
      apply IH in Hrun as (m & Hm & Hnone); exists m; split;
      first [right; exact Hm | exact Hnone].
  - exists missing. split; [left | exact Hgroup].
Qed.

(** X5: what one call of [planAllocations] does to the plan, the generator
    and the log.  The allocations it creates are appended, in the order of
    the place list, each under its node; their ids are the generator's next
    draws in a row (pairwise different when the generator never repeats),
    their names come from the place list in order, each carries the job, the
    pending status and the summed resources of its group; the names that
    found no node are logged, in order, and nothing else is; every name ends
    as a placement or as a log line.  Evictions, evaluation id and priority
    of the plan are untouched.  The call panics only on a name that is no
    key of the groups. *)
Theorem planAllocations_placements (s : ServiceScheduler) (stack : IteratorStack)
    (job : Job) (plan : Plan) (place : list allocNameID)
    (groups : gmap string TaskGroup) :
  match planAllocations s stack job plan place groups with
  | Some (s', stack', plan', err) =>
      exists (placed : list Allocation) (failed : list allocNameID),
        (forall node,
           planAllocs plan' node
           = planAllocs plan node ++ filter (fun a => Alloc_NodeID a = node) placed)
        /\ Alloc_ID <$> placed = GenerateUUID <$> seq (uuids s) (length placed)
        /\ (Inj (=) (=) GenerateUUID -> NoDup (Alloc_ID <$> placed))
        /\ uuids s' = (uuids s + length placed)%nat
        /\ logger s'
           = logger s ++ ((fun m => LogFailedPlace m (Job_ID job)) <$> failed)
        /\ sublist (Alloc_Name <$> placed) (Name <$> place)
        /\ sublist failed place
        /\ (length placed + length failed = length place)%nat
        /\ Forall (fun a =>
                     Alloc_Job a = job /\ Alloc_JobID a = Job_ID job
                     /\ Alloc_Status a = AllocStatusPending
                     /\ exists tg, groups !! Alloc_Name a = Some tg
                                   /\ Alloc_Resources a = (groupTotals tg).2)
                  placed
        /\ NodeEvict plan' = NodeEvict plan
        /\ Plan_EvalID plan' = Plan_EvalID plan
        /\ Plan_Priority plan' = Plan_Priority plan
  | None => exists missing, missing ∈ place /\ groups !! Name missing = None
  end.
Proof.
  destruct (planAllocations s stack job plan place groups)
    as [[[[s' stack'] plan'] err] |] eqn:Hrun.
  - destruct (planAllocations_trace _ _ _ _ _ _ _ _ _ _ Hrun)
      as (placed & failed & Hallocs & Hids & Huuids & Hlog & Hnames & Hfailed
          & Hlen & Hall & Heval & Hprio).
    apply planAllocations_frame in Hrun as (_ & Hevict & _).
    exists placed, failed. repeat split; try assumption.
    intros Hinj. rewrite Hids. apply NoDup_fmap_2; [exact Hinj | apply NoDup_seq].
  - exact (planAllocations_panics _ _ _ _ _ _ Hrun).
Qed.

(** ** Whole runs *)

Lemma runs_refl (P : Plan -> Prop) (s : ServiceScheduler) : runs P s s.
Proof.
  split; [reflexivity |]. split; [lia |].
  split; [exists []; rewrite app_nil_r; reflexivity |].
  exists []. split; [rewrite app_nil_r; reflexivity |].
  split; [constructor | left; reflexivity].
Qed.

Lemma runs_trans (P : Plan -> Prop) (s s1 s2 : ServiceScheduler) :
  runs P s s1 -> runs P s1 s2 -> runs P s s2.
Proof.
  intros (Hpl1 & Hid1 & [lines1 Hlog1] & plans1 & Hsub1 & Hall1 & Hst1)
         (Hpl2 & Hid2 & [lines2 Hlog2] & plans2 & Hsub2 & Hall2 & Hst2).
  split; [congruence |]. split; [lia |].
  split; [exists (lines1 ++ lines2); rewrite Hlog2, Hlog1, app_assoc; reflexivity |].
  exists (plans1 ++ plans2).
  split; [rewrite Hsub2, Hsub1, app_assoc; reflexivity |].
  split; [apply Forall_app; split; assumption |].
  destruct Hst2 as [Hsame | (before & plan & after & planResult & -> & Hreply)].
  - destruct Hst1 as [Hsame1 | (before & plan & after & planResult & -> & Hreply)].
    + left. congruence.
    + right. exists before, plan, (after ++ plans2), planResult.
      split; [rewrite <- app_assoc; reflexivity |]. rewrite Hsame. exact Hreply.
  - right. exists (plans1 ++ before), plan, after, planResult.
    split; [rewrite <- app_assoc; reflexivity |].
    rewrite Hpl1, Hsub1, <- app_assoc in Hreply. exact Hreply.
Qed.

Lemma runs_weaken (P Q : Plan -> Prop) (s s' : ServiceScheduler) :
  (forall plan, P plan -> Q plan) -> runs P s s' -> runs Q s s'.
Proof.
  intros Himpl (Hpl & Hid & Hlog & plans & Hsub & Hall & Hst).
  split; [exact Hpl |]. split; [exact Hid |]. split; [exact Hlog |].
  exists plans. split; [exact Hsub |]. split; [| exact Hst].
  eapply Forall_impl; [exact Hall | exact Himpl].
Qed.

Lemma runs_quiet (P : Plan -> Prop) (s s' : ServiceScheduler) :
  planner s' = planner s ->
  state s' = state s ->
  submitted s' = submitted s ->
  (uuids s <= uuids s')%nat ->
  (exists lines, logger s' = logger s ++ lines) ->
  runs P s s'.
Proof.
  intros Hpl Hst Hsub Hid Hlog.
  split; [exact Hpl |]. split; [exact Hid |]. split; [exact Hlog |].
  exists []. split; [rewrite app_nil_r; exact Hsub |].
  split; [constructor | left; exact Hst].
Qed.

Lemma runs_Printf (P : Plan -> Prop) (s : ServiceScheduler) (line : LogLine) :
  runs P s (Printf s line).
Proof.
  apply runs_quiet;
    [reflexivity | reflexivity | reflexivity | simpl; lia
    | exists [line]; reflexivity].
Qed.

Lemma runs_submit (P : Plan -> Prop) (s : ServiceScheduler) (plan : Plan) :
  P plan -> runs P s (recordSubmit s plan).
Proof.
  intros Hplan. split; [reflexivity |]. split; [simpl; lia |].
  split; [exists []; simpl; rewrite app_nil_r; reflexivity |].
  exists [plan]. split; [reflexivity |].
  split; [constructor; [exact Hplan | constructor] | left; reflexivity].
Qed.

Lemma runs_refresh (P : Plan -> Prop) (s : ServiceScheduler) (plan : Plan)
    (planResult : PlanResult) (newState : State) :
  P plan ->
  planner s (submitted s) plan = Ok (planResult, Some newState) ->
  runs P s (setState (recordSubmit s plan) newState).
Proof.
  intros Hplan Hreply. split; [reflexivity |]. split; [simpl; lia |].
  split; [exists []; simpl; rewrite app_nil_r; reflexivity |].
  exists [plan]. split; [reflexivity |].
  split; [constructor; [exact Hplan | constructor] |].
  right. exists [], plan, [], planResult. split; [reflexivity |].
  rewrite app_nil_r. exact Hreply.
Qed.

Lemma planOfEval_evictPlan (eval : Evaluation) (allocs : list Allocation) :
  planOfEval eval (evictPlan eval allocs)
  /\ NodeAllocation (evictPlan eval allocs) = ∅.
Proof.
  destruct (evictPlan_spec eval allocs) as (_ & Hnone & Hid & Hprio).
  split; [| exact Hnone]. split; [exact Hid |]. split; [exact Hprio |].
  intros node alloc Hin. unfold planAllocs in Hin.
  rewrite Hnone, lookup_empty in Hin. apply elem_of_nil in Hin. contradiction.
Qed.

Lemma evictJobAllocs_pass_runs (s : ServiceScheduler) (eval : Evaluation) :
  runs (fun plan => planOfEval eval plan /\ NodeAllocation plan = ∅)
       s (flowSched (evictJobAllocs_pass s eval)).
Proof.
  unfold evictJobAllocs_pass.
  destruct (AllocsByJob (state s) (Eval_JobID eval)) as [allocs | err];
    [| apply runs_refl].
  destruct (length allocs =? 0)%nat; [apply runs_Printf |].
  eapply runs_trans; [apply runs_Printf |].
  destruct (planner _ _ _) as [[planResult [newState |]] | err] eqn:Hreply; simpl.
  - eapply runs_refresh; [apply planOfEval_evictPlan | exact Hreply].
  - apply runs_submit, planOfEval_evictPlan.
  - apply runs_submit, planOfEval_evictPlan.
Qed.

Lemma evictJobAllocs_runs (eval : Evaluation) (fuel : nat) :
  forall (s s' : ServiceScheduler) (out : Outcome),
    evictJobAllocs fuel s eval = Some (s', out) ->
    runs (fun plan => planOfEval eval plan /\ NodeAllocation plan = ∅) s s'.
Proof.
  induction fuel as [| fuel IH]; intros s s' out Hrun; simpl in Hrun;
    [discriminate |].
  pose proof (evictJobAllocs_pass_runs s eval) as Hpass.
  destruct (evictJobAllocs_pass s eval) as [s2 err | s2 | s2 | s2];
    simpl in Hpass.
  - injection Hrun as <- _. exact Hpass.
  - eapply runs_trans; [exact Hpass | exact (IH _ _ _ Hrun)].
  - eapply runs_trans; [exact Hpass | exact (IH _ _ _ Hrun)].
  - injection Hrun as <- _. exact Hpass.
Qed.

Lemma addEvictsToPlan_ids (evicts : list allocNameID)
    (indexed : gmap string Allocation) (plan : Plan) :
  Plan_EvalID (addEvictsToPlan plan evicts indexed) = Plan_EvalID plan
  /\ Plan_Priority (addEvictsToPlan plan evicts indexed) = Plan_Priority plan.
Proof.
  unfold addEvictsToPlan. revert plan.
  induction evicts as [| evict evicts IH]; intros plan; simpl; [auto |].
  destruct (indexed !! Name evict) as [alloc |]; [| apply IH].
  destruct (IH (AppendEvict plan alloc)) as [-> ->]. auto.
Qed.

(** Every way the planning half of a pass can end. *)
Lemma handleJobRegister_plan_cases (s : ServiceScheduler) (eval : Evaluation) :
  match handleJobRegister_plan s eval with
  | Leaves (FlowReturn s' None) =>
      runs (planOfEval eval) s s' /\ submitted s' = submitted s
      /\ state s' = state s
      /\ (GetJobByID (state s) (Eval_JobID eval) = Ok None
          \/ exists job allocs ignore,
               GetJobByID (state s) (Eval_JobID eval) = Ok (Some job)
               /\ AllocsByJob (state s) (Eval_JobID eval) = Ok allocs
               /\ diffAllocs job (materializeTaskGroups job) (indexAllocs allocs)
                  = ([], [], [], ignore))
  | Leaves (FlowReturn s' (Some err)) =>
      runs (planOfEval eval) s s' /\ submitted s' = submitted s
      /\ exists e,
           err = ErrGetJob (Eval_JobID eval) e
           \/ err = ErrGetAllocs (Eval_JobID eval) e
           \/ err = ErrIterStack e
  | Leaves (FlowEvictAll s') => s' = s
  | Leaves (FlowGoto _) | Leaves (FlowPanic _) => False
  | ReadyToSubmit s1 job stack plan =>
      runs (planOfEval eval) s s1 /\ submitted s1 = submitted s
      /\ state s1 = state s /\ planner s1 = planner s
      /\ planOfEval eval plan
  end.
Proof.
  unfold handleJobRegister_plan.
  destruct (GetJobByID (state s) (Eval_JobID eval)) as [[job |] | err] eqn:Hjob.
  - destruct (size (materializeTaskGroups job) =? 0)%nat; [reflexivity |].
    destruct (AllocsByJob (state s) (Eval_JobID eval)) as [allocs | err] eqn:Hallocs.
    + destruct (diffAllocs job (materializeTaskGroups job) (indexAllocs allocs))
        as [[[place update] evict] ignore] eqn:Hdiff.
      destruct ((length place =? 0)%nat && (length update =? 0)%nat
                && (length evict =? 0)%nat)%bool eqn:Hnone.
      * split; [apply runs_Printf |]. split; [reflexivity |].
        split; [reflexivity |]. right. exists job, allocs, ignore.
        apply andb_prop in Hnone as [Hnone Hevict].
        apply andb_prop in Hnone as [Hplace Hupdate].
        apply length_eqb_nil in Hplace, Hupdate, Hevict. subst. auto.
      * destruct (iterStack _ job _) as [stack | err] eqn:Hstack.
        -- pose proof Hdiff as Hkeys. apply diffAllocs_names in Hkeys as [Hkeys _].
           match goal with
           | |- context [planAllocations ?s1 ?st ?j ?p ?pl ?g] =>
               destruct (planAllocations_total pl s1 st j p g Hkeys)
                 as (s2 & stack2 & plan2 & Hrun);
               rewrite Hrun;
               pose proof (planAllocations_trace _ _ _ _ _ _ _ _ _ _ Hrun)
                 as (placed & failed & Hplaced & _ & Huuids & Hlog & _ & _ & _
                     & Hall & Hid & Hprio);
               apply planAllocations_frame in Hrun
                 as (_ & _ & Hsub & Hst & Hpl & _)
           end.
           simpl in Hsub, Hst, Hpl, Huuids, Hlog.
           assert (runs (planOfEval eval) s s2) as Hruns.
           { eapply runs_trans; [apply runs_Printf |].
             apply runs_quiet; try assumption; [simpl; lia |].
             eexists. exact Hlog. }
           split; [exact Hruns |]. split; [exact Hsub |]. split; [exact Hst |].
           split; [exact Hpl |].
           destruct (addEvictsToPlan_ids update (indexAllocs allocs)
                       (addEvictsToPlan (MakePlan eval job) evict (indexAllocs allocs)))
             as [Hid2 Hprio2].
           destruct (addEvictsToPlan_ids evict (indexAllocs allocs)
                       (MakePlan eval job)) as [Hid1 Hprio1].
           destruct (addEvictsToPlan_spec update (indexAllocs allocs)
                       (addEvictsToPlan (MakePlan eval job) evict (indexAllocs allocs)))
             as [_ Hfr2].
           destruct (addEvictsToPlan_spec evict (indexAllocs allocs)
                       (MakePlan eval job)) as [_ Hfr1].
           split; [rewrite Hid, Hid2, Hid1; reflexivity |].
           split; [rewrite Hprio, Hprio2, Hprio1; reflexivity |].
           intros node alloc Hin. rewrite Hplaced in Hin.
           unfold planAllocs at 1 in Hin. rewrite Hfr2, Hfr1 in Hin.
           simpl in Hin. rewrite lookup_empty in Hin. simpl in Hin.
           apply list_elem_of_filter in Hin as [Hnode Hin].
           split; [exact Hnode |].
           rewrite Forall_forall in Hall. apply (Hall alloc Hin).
        -- split; [apply runs_Printf |]. split; [reflexivity |]. eauto.
    + split; [apply runs_refl |]. split; [reflexivity |]. eauto.
  - split; [apply runs_Printf |]. split; [reflexivity |].
    split; [reflexivity |]. left. reflexivity.
  - split; [apply runs_refl |]. split; [reflexivity |]. eauto.
Qed.

Lemma handleJobRegister_pass_cases (s : ServiceScheduler) (eval : Evaluation) :
  runs (planOfEval eval) s (flowSched (handleJobRegister_pass s eval))
  /\ match handleJobRegister_pass s eval with
     | FlowReturn s' None => registerSettled eval s'
     | FlowReturn s' (Some err) =>
         exists e,
           err = ErrGetJob (Eval_JobID eval) e
           \/ err = ErrGetAllocs (Eval_JobID eval) e
           \/ err = ErrIterStack e
           \/ err = ErrPlanner e
     | FlowGoto _ => True
     | FlowEvictAll s' => s' = s
     | FlowPanic _ => False
     end.
Proof.
  unfold handleJobRegister_pass.
  pose proof (handleJobRegister_plan_cases s eval) as Hplan.
  destruct (handleJobRegister_plan s eval) as [s1 job stack plan | flow].
  - destruct Hplan as (Hruns & Hsub & Hst & Hpl & Hplan).
    unfold handleJobRegister_submit.
    destruct (planner s1 (submitted s1) plan)
      as [[planResult [newState |]] | err] eqn:Hreply; simpl.
    + split; [| exact I].
      eapply runs_trans; [exact Hruns |].
      eapply runs_refresh; [exact Hplan | exact Hreply].
    + destruct (FullCommit planResult plan) as [[[|] expected] actual] eqn:Hfull;
        simpl.
      * split; [eapply runs_trans; [exact Hruns | apply runs_submit, Hplan] |].
        right. right. exists (submitted s1), plan, planResult.
        split; [reflexivity |]. split; [exact Hreply |].
        rewrite Hfull. reflexivity.
      * split; [| exact I].
        eapply runs_trans; [exact Hruns |].
        eapply runs_trans; [apply runs_submit, Hplan | apply runs_Printf].
    + split; [eapply runs_trans; [exact Hruns | apply runs_submit, Hplan] |].
      exists err. auto.
  - destruct flow as [s' [err |] | s' | s' | s']; simpl.
    + destruct Hplan as (Hruns & _ & e & Herr). split; [exact Hruns |].
      exists e. tauto.
    + destruct Hplan as (Hruns & _ & Hst & Hor). split; [exact Hruns |].
      unfold registerSettled. rewrite Hst.
      destruct Hor as [Hgone | Hnothing]; [left; exact Hgone | right; left; exact Hnothing].
    + contradiction.
    + subst s'. split; [apply runs_refl | reflexivity].
    + contradiction.
Qed.

Lemma evictJobAllocs_outcomes (eval : Evaluation) (fuel : nat) :
  forall s : ServiceScheduler,
    match evictJobAllocs fuel s eval with
    | Some (s', Returned (Some err)) =>
        exists e, err = ErrGetAllocs (Eval_JobID eval) e \/ err = ErrPlanner e
    | Some (s', Returned None) => evictSettled eval s'
    | Some (_, Panicked) => False
    | None => True
    end.
Proof.
  induction fuel as [| fuel IH]; intros s; simpl; [exact I |].
  unfold evictJobAllocs_pass.
  destruct (AllocsByJob (state s) (Eval_JobID eval)) as [allocs | err] eqn:Hallocs.
  - destruct (length allocs =? 0)%nat eqn:Hlen.
    + apply length_eqb_nil in Hlen. subst allocs.
      exists []. split; [exact Hallocs | left; reflexivity].
    + destruct (planner _ _ _) as [[planResult [newState |]] | err] eqn:Hreply.
      * apply IH.
      * exists allocs. split; [exact Hallocs |]. right.
        exists (submitted s), planResult. split; [reflexivity | exact Hreply].
      * exists err. auto.
  - exists err. auto.
Qed.

Lemma handleJobRegister_from_runs (eval : Evaluation) (fuel evictFuel : nat) :
  forall (attempts : Z) (s s' : ServiceScheduler) (out : Outcome),
    handleJobRegister_from fuel evictFuel attempts s eval = Some (s', out) ->
    runs (planOfEval eval) s s'.
Proof.
  induction fuel as [| fuel IH]; intros attempts s s' out Hrun; simpl in Hrun;
    [discriminate |].
  destruct (attempts =? maxScheduleAttempts)%Z.
  - injection Hrun as <- _. apply runs_refl.
  - destruct (handleJobRegister_pass_cases s eval) as [Hpass _].
    destruct (handleJobRegister_pass s eval) as [s2 err | s2 | s2 | s2];
      simpl in Hpass.
    + injection Hrun as <- _. exact Hpass.
    + eapply runs_trans; [exact Hpass | exact (IH _ _ _ _ Hrun)].
    + eapply runs_trans; [exact Hpass |].
      eapply runs_weaken; [| exact (evictJobAllocs_runs _ _ _ _ _ Hrun)].
      intros plan [Hplan _]. exact Hplan.
    + injection Hrun as <- _. exact Hpass.
Qed.

Lemma handleJobRegister_from_outcomes (eval : Evaluation) (fuel evictFuel : nat) :
  forall (attempts : Z) (s : ServiceScheduler),
    match handleJobRegister_from fuel evictFuel attempts s eval with
    | Some (s', Returned (Some err)) =>
        err = ErrMaxAttempts maxScheduleAttempts
        \/ exists e,
             err = ErrGetJob (Eval_JobID eval) e
             \/ err = ErrGetAllocs (Eval_JobID eval) e
             \/ err = ErrIterStack e
             \/ err = ErrPlanner e
    | Some (s', Returned None) => registerSettled eval s' \/ evictSettled eval s'
    | Some (_, Panicked) => False
    | None => True
    end.
Proof.
  induction fuel as [| fuel IH]; intros attempts s; simpl; [exact I |].
  destruct (Z.eqb_spec attempts maxScheduleAttempts) as [-> | _].
  - left. reflexivity.
  - destruct (handleJobRegister_pass_cases s eval) as [_ Hpass].
    destruct (handleJobRegister_pass s eval) as [s2 [err |] | s2 | s2 | s2].
    + right. exact Hpass.
    + left. exact Hpass.
    + apply IH.
    + pose proof (evictJobAllocs_outcomes eval evictFuel s2) as Hevict.
      destruct (evictJobAllocs evictFuel s2 eval) as [[s' [[err |] |]] |].
      * right. destruct Hevict as [e Herr]. exists e. tauto.
      * right. exact Hevict.
      * exact Hevict.
      * exact I.
    + exact Hpass.
Qed.

Lemma Process_runs (fuel : nat) (s s' : ServiceScheduler) (eval : Evaluation)
    (out : Outcome) :
  Process fuel s eval = Some (s', out) ->
  runs (planOfEval eval) s s'
  /\ (Eval_TriggeredBy eval = EvalTriggerJobDeregister ->
      runs (fun plan => planOfEval eval plan /\ NodeAllocation plan = ∅) s s').
Proof.
  unfold Process, handleJobRegister, handleNodeUpdate.
  destruct (Eval_TriggeredBy eval); intros Hrun.
  - split; [exact (handleJobRegister_from_runs _ _ _ _ _ _ _ Hrun) | discriminate].
  - pose proof (evictJobAllocs_runs _ _ _ _ _ Hrun) as Hruns.
    split; [| intros _; exact Hruns].
    eapply runs_weaken; [| exact Hruns]. intros plan [Hplan _]. exact Hplan.
  - injection Hrun as <- _. split; [apply runs_refl | discriminate].
  - injection Hrun as <- _. split; [apply runs_refl | discriminate].
Qed.

(** X6: whatever [Process] does, it leaves the planner of the scheduler as
    it was, only adds to the log, to the ids drawn and to the plans
    submitted, and the state it ends with is the one it started with or a
    snapshot the planner returned in answer to one of the plans of this
    call. *)
Theorem Process_extends (fuel : nat) (s : ServiceScheduler) (eval : Evaluation) :
  match Process fuel s eval with
  | Some (s', _) =>
      planner s' = planner s
      /\ (uuids s <= uuids s')%nat
      /\ (exists lines, logger s' = logger s ++ lines)
      /\ exists plans,
           submitted s' = submitted s ++ plans
           /\ (state s' = state s
               \/ exists before plan after planResult,
                    plans = before ++ plan :: after
                    /\ planner s (submitted s ++ before) plan
                       = Ok (planResult, Some (state s')))
  | None => True
  end.
Proof.
  destruct (Process fuel s eval) as [[s' out] |] eqn:Hrun; [| exact I].
  destruct (Process_runs _ _ _ _ _ Hrun)
    as [(Hpl & Hid & Hlog & plans & Hsub & _ & Hst) _].
  split; [exact Hpl |]. split; [exact Hid |]. split; [exact Hlog |].
  exists plans. split; [exact Hsub | exact Hst].
Qed.

(** X7: every plan [Process] hands to the planner carries the id and the
    priority of the evaluation, and whatever it places under a node is an
    allocation bound to that node with status pending; on a deregister
    evaluation the plans place nothing at all.  For a scheduler fresh from
    [NewServiceScheduler] these are all the plans the planner has seen. *)
Theorem Process_plans (fuel : nat) (eval : Evaluation) :
  (forall s : ServiceScheduler,
     match Process fuel s eval with
     | Some (s', _) =>
         exists plans,
           submitted s' = submitted s ++ plans
           /\ Forall (planOfEval eval) plans
           /\ (Eval_TriggeredBy eval = EvalTriggerJobDeregister ->
               Forall (fun plan => NodeAllocation plan = ∅) plans)
     | None => True
     end)
  /\ (forall lines st p,
        match Process fuel (NewServiceScheduler lines st p) eval with
        | Some (s', _) => Forall (planOfEval eval) (submitted s')
        | None => True
        end).
Proof.
  assert (forall s s' out,
            Process fuel s eval = Some (s', out) ->
            exists plans,
              submitted s' = submitted s ++ plans
              /\ Forall (planOfEval eval) plans
              /\ (Eval_TriggeredBy eval = EvalTriggerJobDeregister ->
                  Forall (fun plan => NodeAllocation plan = ∅) plans)) as Hgen.
  { intros s s' out Hrun.
    destruct (Process_runs _ _ _ _ _ Hrun)
      as [(_ & _ & _ & plans & Hsub & Hall & _) Hderegister].
    exists plans. split; [exact Hsub |]. split; [exact Hall |].
    intros Htrigger.
    destruct (Hderegister Htrigger) as (_ & _ & _ & plans' & Hsub' & Hall' & _).
    rewrite Hsub in Hsub'. apply app_inv_head in Hsub'. subst plans'.
    eapply Forall_impl; [exact Hall' |]. intros plan [_ Hnone]. exact Hnone. }
  split.
  - intros s. destruct (Process fuel s eval) as [[s' out] |] eqn:Hrun; [| exact I].
    exact (Hgen _ _ _ Hrun).
  - intros lines st p.
    destruct (Process fuel (NewServiceScheduler lines st p) eval)
      as [[s' out] |] eqn:Hrun; [| exact I].
    destruct (Hgen _ _ _ Hrun) as (plans & Hsub & Hall & _).
    rewrite Hsub. exact Hall.
Qed.

(** X8: the ways [Process] can end, by trigger.  A register evaluation
    fails only with the exhausted-attempts error (always at 5 attempts), a
    wrapped read of the job, of its allocations or of the nodes, or the
    planner's error; a deregister evaluation only with a wrapped read of the
    allocations or the planner's error.  A node-update evaluation returns nil
    and another trigger returns the unsupported-trigger error, both at once,
    with the scheduler untouched and whatever the snapshot and the planner
    would answer.  No evaluation makes [Process] panic. *)
Theorem Process_failures (fuel : nat) (s : ServiceScheduler) (eval : Evaluation) :
  match Process fuel s eval with
  | Some (s', Returned (Some err)) =>
      match Eval_TriggeredBy eval with
      | EvalTriggerJobRegister =>
          err = ErrMaxAttempts maxScheduleAttempts
          \/ exists e,
               err = ErrGetJob (Eval_JobID eval) e
               \/ err = ErrGetAllocs (Eval_JobID eval) e
               \/ err = ErrIterStack e
               \/ err = ErrPlanner e
      | EvalTriggerJobDeregister =>
          exists e, err = ErrGetAllocs (Eval_JobID eval) e \/ err = ErrPlanner e
      | EvalTriggerNodeUpdate => False
      | EvalTriggerOther reason =>
          err = ErrUnsupportedTrigger (EvalTriggerOther reason) /\ s' = s
      end
  | Some (s', Returned None) =>
      match Eval_TriggeredBy eval with
      | EvalTriggerNodeUpdate => s' = s
      | EvalTriggerOther _ => False
      | EvalTriggerJobRegister | EvalTriggerJobDeregister => True
      end
  | Some (_, Panicked) => False
  | None =>
      match Eval_TriggeredBy eval with
      | EvalTriggerNodeUpdate | EvalTriggerOther _ => False
      | EvalTriggerJobRegister | EvalTriggerJobDeregister => True
      end
  end.
Proof.
  unfold Process, handleJobRegister, handleNodeUpdate.
  destruct (Eval_TriggeredBy eval) as [| | | reason].
  - pose proof (handleJobRegister_from_outcomes eval fuel fuel 0 s) as Hout.
    destruct (handleJobRegister_from fuel fuel 0 s eval)
      as [[s' [[err |] |]] |]; first [exact Hout | exact I].
  - pose proof (evictJobAllocs_outcomes eval fuel s) as Hout.
    destruct (evictJobAllocs fuel s eval) as [[s' [[err |] |]] |];
      first [exact Hout | exact I].
  - reflexivity.
  - split; reflexivity.
Qed.

(** X9: what a nil from [Process] means.  On a deregister evaluation the
    state the scheduler ends with lists no allocation of the job, or the last
    plan submitted evicts every allocation that state lists and the planner
    answered it with no new snapshot.  On a register evaluation the same
    holds if the handler handed over to the evict-all loop; otherwise the job
    is not in the final state, or the diff on the final state found nothing
    to place, update or evict, or the last plan submitted was answered with
    no new snapshot and a full commit. *)
Theorem Process_success (fuel : nat) (s : ServiceScheduler) (eval : Evaluation) :
  match Process fuel s eval with
  | Some (s', Returned None) =>
      match Eval_TriggeredBy eval with
      | EvalTriggerJobRegister => registerSettled eval s' \/ evictSettled eval s'
      | EvalTriggerJobDeregister => evictSettled eval s'
      | EvalTriggerNodeUpdate | EvalTriggerOther _ => s' = s
      end
  | _ => True
  end.
Proof.
  unfold Process, handleJobRegister, handleNodeUpdate.
  destruct (Eval_TriggeredBy eval) as [| | | reason].
  - pose proof (handleJobRegister_from_outcomes eval fuel fuel 0 s) as Hout.
    destruct (handleJobRegister_from fuel fuel 0 s eval)
      as [[s' [[err |] |]] |]; first [exact I | exact Hout].
  - pose proof (evictJobAllocs_outcomes eval fuel s) as Hout.
    destruct (evictJobAllocs fuel s eval) as [[s' [[err |] |]] |];
      first [exact I | exact Hout].
  - reflexivity.
  - exact I.
Qed.

End Properties.

(** * The properties on the concrete cluster *)

Section Scenarios.
#[local] Existing Instance demoStructs.
#[local] Existing Instance demoCollab.

Lemma demo_ceilLog2_exact : ceilLog2_exact.
Proof.
  intros n Hn. simpl. destruct (Z.eq_dec n 1) as [-> | Hne].
  - split; reflexivity.
  - pose proof (Z.log2_up_spec n ltac:(lia)) as Hspec.
    replace (Z.log2_up n - 1) with (Z.pred (Z.log2_up n)) by lia. exact Hspec.
Qed.

Lemma iterStack_limit_witness :
  ceilLog2_exact
  /\ exists stack,
       iterStack freshScheduler (webJob 50 2) emptyPlan = Ok stack
       /\ length (BaseNodes stack) = 3%nat
       /\ Limit stack = 2.
Proof.
  split; [exact demo_ceilLog2_exact |].
  eexists. split; [reflexivity |]. split; [reflexivity |].
  refine (proj1 (proj2 (iterStack_limit freshScheduler (webJob 50 2) emptyPlan _
                          demo_ceilLog2_exact eq_refl)) _).
  simpl. lia.
Defined.

Lemma keepsRefreshing_pass (s : ServiceScheduler) :
  keepsRefreshing s ->
  exists s1, evictJobAllocs_pass s registerEval = FlowGoto s1 /\ keepsRefreshing s1.
Proof.
  destruct s as [lg st pl sub uu]. intros [Hstate Hplanner].
  simpl in Hstate, Hplanner. subst st pl.
  eexists. split; [reflexivity |]. split; reflexivity.
Qed.

Lemma zeroCount_pass :
  handleJobRegister_pass zeroCountScheduler registerEval
  = FlowEvictAll zeroCountScheduler.
Proof. vm_compute. reflexivity. Qed.

(** The register path need not return: registered with count 0 while an
    allocation is left, "web" is handed to the evict-all loop, which never
    ends under a planner that answers every plan with a refresh. *)
Lemma handleJobRegister_may_never_return :
  ~ exists fuel evictFuel result,
      handleJobRegister fuel evictFuel zeroCountScheduler registerEval
      = Some result.
Proof.
  intros (fuel & evictFuel & result & Hrun).
  destruct fuel as [| fuel]; [discriminate |].
  unfold handleJobRegister in Hrun.
  rewrite handleJobRegister_from_step in Hrun by discriminate.
  rewrite zeroCount_pass in Hrun.
  rewrite (evictJobAllocs_diverges registerEval keepsRefreshing
             keepsRefreshing_pass evictFuel zeroCountScheduler) in Hrun.
  - discriminate.
  - split; reflexivity.
Qed.

Lemma handleJobRegister_attempts_witness :
  (6 <= 6)%nat
  /\ exists s5,
       handleJobRegister 6 0 refreshScheduler registerEval
       = Some (s5, Returned (Some (ErrMaxAttempts maxScheduleAttempts)))
       /\ length (submitted s5) = 5%nat.
Proof.
  split; [lia |]. eexists. split.
  - apply (proj2 (handleJobRegister_attempts refreshScheduler registerEval 6 0
                    (le_n 6))).
    do 5 (eapply restarts_more; [vm_compute; reflexivity |]). apply restarts_none.
  - vm_compute. reflexivity.
Defined.

Lemma partialReady_eq :
  handleJobRegister_plan partialScheduler registerEval = partialReady.
Proof. vm_compute. reflexivity. Qed.

Lemma handleJobRegister_after_submit_witness :
  match partialReady with
  | ReadyToSubmit s1 job stack plan =>
      handleJobRegister_plan partialScheduler registerEval
      = ReadyToSubmit s1 job stack plan
      /\ planner s1 (submitted s1) plan = Ok (0%nat, None)
      /\ (0 : Z) <> maxScheduleAttempts
      /\ (FullCommit 0%nat plan).1.1 = false
      /\ if (FullCommit 0%nat plan).1.1 then
           handleJobRegister_from 2 0 0 partialScheduler registerEval
           = Some (recordSubmit s1 plan, Returned None)
         else
           handleJobRegister_from 2 0 0 partialScheduler registerEval
           = handleJobRegister_from 1 0 (0 + 1)
               (Printf (recordSubmit s1 plan)
                  (LogAttempted (Eval_ID registerEval) (Eval_JobID registerEval)
                                (FullCommit 0%nat plan).1.2
                                (FullCommit 0%nat plan).2))
               registerEval
  | Leaves _ => False
  end.
Proof.
  unfold partialReady.
  split; [exact partialReady_eq |].
  split; [vm_compute; reflexivity |].
  split; [discriminate |].
  split; [vm_compute; reflexivity |].
  match goal with
  | |- context [recordSubmit ?s1 ?plan] =>
      exact (proj1 (handleJobRegister_after_submit partialScheduler s1
                      registerEval _ _ plan 0%nat None 1 0 0 partialReady_eq
                      ltac:(vm_compute; reflexivity) ltac:(discriminate)))
  end.
Defined.

Lemma register_update_evicts_and_places_witness :
  GetJobByID (state staleScheduler) (Eval_JobID registerEval)
  = Ok (Some (webJob 50 2))
  /\ size (materializeTaskGroups (webJob 50 2)) <> 0%nat
  /\ AllocsByJob (state staleScheduler) (Eval_JobID registerEval) = Ok staleAllocs
  /\ diffAllocs (webJob 50 2) (materializeTaskGroups (webJob 50 2))
                (indexAllocs staleAllocs)
     = ([nameOnly "web.frontend[1]"],
        [{| Name := "web.frontend[0]"; ID := "a1" |}],
        [{| Name := "web.frontend[5]"; ID := "a2" |}], [])
  /\ baseNodes staleScheduler (webJob 50 2)
     = Ok [readyNode "n1"; readyNode "n2"; readyNode "n3"]
  /\ exists s2 stack2 plan2,
       handleJobRegister_plan staleScheduler registerEval
       = ReadyToSubmit s2 (webJob 50 2) stack2 plan2
       /\ (uuids s2 + length (logger s2) = 0 + 1 + 1 + 1)%nat.
Proof.
  assert (GetJobByID (state staleScheduler) (Eval_JobID registerEval)
          = Ok (Some (webJob 50 2))) as Hjob by reflexivity.
  assert (size (materializeTaskGroups (webJob 50 2)) <> 0%nat) as Hsize
      by (apply Nat.eqb_neq; vm_compute; reflexivity).
  assert (AllocsByJob (state staleScheduler) (Eval_JobID registerEval)
          = Ok staleAllocs) as Hallocs by reflexivity.
  assert (diffAllocs (webJob 50 2) (materializeTaskGroups (webJob 50 2))
                     (indexAllocs staleAllocs)
          = ([nameOnly "web.frontend[1]"],
             [{| Name := "web.frontend[0]"; ID := "a1" |}],
             [{| Name := "web.frontend[5]"; ID := "a2" |}], [])) as Hdiff
      by (vm_compute; reflexivity).
  assert (baseNodes staleScheduler (webJob 50 2)
          = Ok [readyNode "n1"; readyNode "n2"; readyNode "n3"]) as Hnodes
      by reflexivity.
  repeat (split; [assumption |]).
  destruct (register_update_evicts_and_places staleScheduler registerEval
              (webJob 50 2) staleAllocs _ _ _ _ _ Hjob Hsize Hallocs Hdiff
              ltac:(intros (Hplace & _); discriminate Hplace) Hnodes)
    as (_ & plan0 & stack0 & s2 & stack2 & plan2
        & _ & _ & _ & _ & Hplan & _ & Hcount & _).
  exists s2, stack2, plan2. split; [exact Hplan | exact Hcount].
Defined.

Lemma planAllocations_each_name_witness :
  materializeTaskGroups (webJob 50 2) !! Name missing0 = Some (webGroup 2)
  /\ TaskGroupDrivers
       (SetResources
          (SetConstraints
             (SetDrivers (resetMaxScore threeNodeStack)
                         (list_to_set (Task_Driver <$> TG_Tasks (webGroup 2))))
             (TG_Constraints (webGroup 2)
              ++ mjoin (Task_Constraints <$> TG_Tasks (webGroup 2))))
          (foldl addResources zeroResources (Task_Resources <$> TG_Tasks (webGroup 2))))
     = list_to_set (Task_Driver <$> TG_Tasks (webGroup 2))
  /\ forall s' stack' plan' err,
       planAllocations freshScheduler threeNodeStack (webJob 50 2) emptyPlan
                       [missing0] (materializeTaskGroups (webJob 50 2))
       = Some (s', stack', plan', err) ->
       err = None.
Proof.
  assert (materializeTaskGroups (webJob 50 2) !! Name missing0
          = Some (webGroup 2)) as Hgroup by (vm_compute; reflexivity).
  split; [exact Hgroup |].
  pose proof (planAllocations_each_name freshScheduler threeNodeStack
                (webJob 50 2) emptyPlan missing0 []
                (materializeTaskGroups (webJob 50 2)) (webGroup 2) Hgroup)
    as [(_ & Hdrivers & _) [_ Hnil]].
  split; [exact Hdrivers | exact Hnil].
Defined.

Lemma handleJobRegister_nothing_to_do_witness :
  GetJobByID (state absentScheduler) (Eval_JobID registerEval) = Ok None
  /\ (exists s',
        handleJobRegister 1 0 absentScheduler registerEval
        = Some (s', Returned None)
        /\ submitted s' = submitted absentScheduler)
  /\ diffAllocs (webJob 40 2) (materializeTaskGroups (webJob 40 2))
                (indexAllocs [oldAlloc "a1" "web.frontend[0]" "n1";
                              oldAlloc "a2" "web.frontend[1]" "n2"])
     = ([], [], [],
        [{| Name := "web.frontend[1]"; ID := "a2" |};
         {| Name := "web.frontend[0]"; ID := "a1" |}])
  /\ exists s',
       handleJobRegister 1 0 settledScheduler registerEval
       = Some (s', Returned None)
       /\ submitted s' = submitted settledScheduler.
Proof.
  split; [reflexivity |].
  split; [exact (proj1 (handleJobRegister_nothing_to_do absentScheduler
                          registerEval 0 0) eq_refl) |].
  assert (diffAllocs (webJob 40 2) (materializeTaskGroups (webJob 40 2))
                     (indexAllocs [oldAlloc "a1" "web.frontend[0]" "n1";
                                   oldAlloc "a2" "web.frontend[1]" "n2"])
          = ([], [], [],
             [{| Name := "web.frontend[1]"; ID := "a2" |};
              {| Name := "web.frontend[0]"; ID := "a1" |}])) as Hdiff
      by (vm_compute; reflexivity).
  split; [exact Hdiff |].
  refine (proj2 (handleJobRegister_nothing_to_do settledScheduler registerEval 0 0)
            (webJob 40 2) _ _ eq_refl _ eq_refl Hdiff).
  apply Nat.eqb_neq. vm_compute. reflexivity.
Defined.

Lemma register_empty_job_is_deregister_witness :
  GetJobByID (state zeroCountCommit) (Eval_JobID registerEval)
  = Ok (Some (webJob 50 0))
  /\ materializeTaskGroups (webJob 50 0) = ∅
  /\ handleJobRegister 1 3 zeroCountCommit registerEval
     = evictJobAllocs 3 zeroCountCommit registerEval
  /\ Process 3 zeroCountCommit (withTrigger registerEval EvalTriggerJobRegister)
     = Process 3 zeroCountCommit (withTrigger registerEval EvalTriggerJobDeregister).
Proof.
  split; [reflexivity |].
  destruct (register_empty_job_is_deregister zeroCountCommit registerEval
              (webJob 50 0) eq_refl) as [Hcount Hsame].
  assert (materializeTaskGroups (webJob 50 0) = ∅) as Hempty.
  { apply Hcount. constructor; [simpl; lia | constructor]. }
  split; [exact Hempty |].
  split; [exact (proj1 (Hsame Hempty) 0%nat 3%nat) | exact (proj2 (Hsame Hempty) 3%nat)].
Defined.

Lemma evictJobAllocs_plan_witness :
  AllocsByJob (state freshScheduler) (Eval_JobID registerEval) = Ok []
  /\ (exists s',
        submitted s' = submitted freshScheduler
        /\ forall fuel,
             evictJobAllocs (S fuel) freshScheduler registerEval
             = Some (s', Returned None))
  /\ keepsRefreshing zeroCountScheduler
  /\ forall fuel, evictJobAllocs fuel zeroCountScheduler registerEval = None.
Proof.
  split; [reflexivity |]. split.
  - exact (proj1 (evictJobAllocs_plan freshScheduler registerEval) eq_refl).
  - split; [split; reflexivity |].
    exact (proj2 (proj2 (evictJobAllocs_plan zeroCountScheduler registerEval))
             keepsRefreshing (conj eq_refl eq_refl) keepsRefreshing_pass).
Defined.

Lemma planAllocations_returns_nil_witness :
  Forall (fun missing =>
            is_Some (materializeTaskGroups (webJob 50 2) !! Name missing))
         [missing0]
  /\ exists s' stack' plan',
       planAllocations freshScheduler threeNodeStack (webJob 50 2) emptyPlan
                       [missing0] (materializeTaskGroups (webJob 50 2))
       = Some (s', stack', plan', None).
Proof.
  assert (Forall (fun missing =>
                    is_Some (materializeTaskGroups (webJob 50 2) !! Name missing))
                 [missing0]) as Hkeys.
  { constructor; [| constructor]. exists (webGroup 2). vm_compute. reflexivity. }
  split; [exact Hkeys |].
  exact (proj1 (proj2 (planAllocations_returns_nil freshScheduler (webJob 50 2)
                         (materializeTaskGroups (webJob 50 2)) registerEval))
           threeNodeStack emptyPlan [missing0] Hkeys).
Defined.

Lemma evictJobAllocs_ignores_PlanResult_witness :
  AllocsByJob (state zeroCountPartial) (Eval_JobID registerEval)
  = Ok [oldAlloc "a1" "web.frontend[0]" "n1"]
  /\ planner zeroCountPartial (submitted zeroCountPartial)
             (evictPlan registerEval [oldAlloc "a1" "web.frontend[0]" "n1"])
     = Ok (0%nat, None)
  /\ exists s',
       submitted s'
       = submitted zeroCountPartial
         ++ [evictPlan registerEval [oldAlloc "a1" "web.frontend[0]" "n1"]]
       /\ forall fuel,
            evictJobAllocs (S fuel) zeroCountPartial registerEval
            = Some (s', Returned None).
Proof.
  split; [reflexivity |]. split; [reflexivity |].
  exact (proj1 (evictJobAllocs_ignores_PlanResult zeroCountPartial registerEval
                  [oldAlloc "a1" "web.frontend[0]" "n1"] 0%nat eq_refl
                  ltac:(discriminate) eq_refl)).
Defined.

(** ** The further properties on the concrete cluster *)

Lemma baseNodes_spec_witness :
  baseNodes freshScheduler (webJob 50 2)
  = Ok [readyNode "n1"; readyNode "n2"; readyNode "n3"]
  /\ baseNodes flakyScheduler twoDcJob = Fail "datacenter unreachable".
Proof.
  split.
  - apply (proj1 (baseNodes_spec freshScheduler (webJob 50 2))).
    exists [[readyNode "n1"; readyNode "n2"; readyNode "n3"]].
    split; [| reflexivity]. constructor; [reflexivity | constructor].
  - apply (proj1 (proj2 (baseNodes_spec flakyScheduler twoDcJob))).
    exists ["dc1"], "dc2", [], [[readyNode "n1"]].
    split; [reflexivity |]. split; [| reflexivity].
    constructor; [reflexivity | constructor].
Defined.

Lemma iterStack_limit_floor_witness :
  exists stack,
    iterStack freshScheduler (webJob 50 2) emptyPlan = Ok stack
    /\ 2 <= Limit stack.
Proof.
  eexists. split; [reflexivity |].
  exact (proj1 (iterStack_limit_floor freshScheduler (webJob 50 2) emptyPlan)).
Defined.

Lemma handleJobRegister_read_errors_witness :
  GetJobByID (state unreadableScheduler) (Eval_JobID registerEval)
  = Fail "snapshot closed"
  /\ handleJobRegister 1 0 unreadableScheduler registerEval
     = Some (unreadableScheduler,
             Returned (Some (ErrGetJob "web" "snapshot closed")))
  /\ diffAllocs twoDcJob (materializeTaskGroups twoDcJob) (indexAllocs [])
     = ([nameOnly "web.frontend[0]"], [], [], [])
  /\ baseNodes flakyScheduler twoDcJob = Fail "datacenter unreachable"
  /\ handleJobRegister 1 0 flakyScheduler registerEval
     = Some (Printf flakyScheduler (LogNeeds "eval-1" "web" 1 0 0 0),
             Returned (Some (ErrIterStack "datacenter unreachable"))).
Proof.
  split; [reflexivity |].
  split; [exact (proj1 (handleJobRegister_read_errors unreadableScheduler
                          registerEval 0 0) "snapshot closed" eq_refl) |].
  assert (diffAllocs twoDcJob (materializeTaskGroups twoDcJob) (indexAllocs [])
          = ([nameOnly "web.frontend[0]"], [], [], [])) as Hdiff
      by (vm_compute; reflexivity).
  assert (size (materializeTaskGroups twoDcJob) <> 0%nat) as Hsize
      by (apply Nat.eqb_neq; vm_compute; reflexivity).
  split; [exact Hdiff |]. split; [reflexivity |].
  exact (proj2 (proj2 (handleJobRegister_read_errors flakyScheduler registerEval
                         0 0))
           twoDcJob [] _ _ _ _ "datacenter unreachable" eq_refl Hsize eq_refl
           Hdiff ltac:(intros (Hplace & _); discriminate Hplace) eq_refl).
Defined.

Lemma planner_error_is_returned_witness :
  AllocsByJob (state rejectedScheduler) (Eval_JobID registerEval)
  = Ok [oldAlloc "a1" "web.frontend[0]" "n1"]
  /\ planner rejectedScheduler (submitted rejectedScheduler)
             (evictPlan registerEval [oldAlloc "a1" "web.frontend[0]" "n1"])
     = Fail "no cluster leader"
  /\ exists s',
       evictJobAllocs 1 rejectedScheduler registerEval
       = Some (s', Returned (Some (ErrPlanner "no cluster leader")))
       /\ submitted s'
          = submitted rejectedScheduler
            ++ [evictPlan registerEval [oldAlloc "a1" "web.frontend[0]" "n1"]]
       /\ state s' = state rejectedScheduler.
Proof.
  split; [reflexivity |]. split; [reflexivity |].
  exact (proj2 (planner_error_is_returned rejectedScheduler registerEval 0 0)
           [oldAlloc "a1" "web.frontend[0]" "n1"] "no cluster leader" eq_refl
           ltac:(discriminate) eq_refl).
Defined.

Lemma freshPlaced_eq :
  planAllocations freshScheduler threeNodeStack (webJob 50 2) emptyPlan
                  [missing0; missing1] (materializeTaskGroups (webJob 50 2))
  = freshPlaced.
Proof. vm_compute. reflexivity. Qed.

Lemma planAllocations_placements_witness :
  match freshPlaced with
  | Some (s', stack', plan', err) =>
      planAllocations freshScheduler threeNodeStack (webJob 50 2) emptyPlan
                      [missing0; missing1] (materializeTaskGroups (webJob 50 2))
      = Some (s', stack', plan', err)
      /\ uuids s' = 2%nat
      /\ exists (placed : list Allocation) (failed : list allocNameID),
           (forall node,
              planAllocs plan' node
              = planAllocs emptyPlan node
                ++ filter (fun a => Alloc_NodeID a = node) placed)
           /\ uuids s' = (uuids freshScheduler + length placed)%nat
           /\ (length placed + length failed = 2)%nat
  | None => False
  end.
Proof.
  pose proof (planAllocations_placements freshScheduler threeNodeStack
                (webJob 50 2) emptyPlan [missing0; missing1]
                (materializeTaskGroups (webJob 50 2))) as Hplaced.
  rewrite freshPlaced_eq in Hplaced. unfold freshPlaced in *.
  split; [exact freshPlaced_eq |]. split; [reflexivity |].
  destruct Hplaced as (placed & failed & Hallocs & _ & _ & Huuids & _ & _ & _
                       & Hlen & _).
  exists placed, failed. split; [exact Hallocs |]. split; [exact Huuids | exact Hlen].
Defined.

Lemma refreshDone_eq : Process 6 refreshScheduler registerEval = refreshDone.
Proof. vm_compute. reflexivity. Qed.

Lemma Process_extends_witness :
  match refreshDone with
  | Some (s', out) =>
      Process 6 refreshScheduler registerEval = Some (s', out)
      /\ length (submitted s') = 5%nat
      /\ planner s' = planner refreshScheduler
      /\ (uuids refreshScheduler <= uuids s')%nat
      /\ (exists lines, logger s' = logger refreshScheduler ++ lines)
      /\ exists plans,
           submitted s' = submitted refreshScheduler ++ plans
           /\ (state s' = state refreshScheduler
               \/ exists before plan after planResult,
                    plans = before ++ plan :: after
                    /\ planner refreshScheduler
                               (submitted refreshScheduler ++ before) plan
                       = Ok (planResult, Some (state s')))
  | None => False
  end.
Proof.
  pose proof (Process_extends 6 refreshScheduler registerEval) as Hextends.
  rewrite refreshDone_eq in Hextends. unfold refreshDone in *.
  split; [exact refreshDone_eq |]. split; [reflexivity | exact Hextends].
Defined.

Lemma factoryDone_eq :
  Process 3 (NewServiceScheduler [] staleState commitAll) registerEval
  = factoryDone.
Proof. vm_compute. reflexivity. Qed.

Lemma Process_plans_witness :
  match factoryDone with
  | Some (s', out) =>
      Process 3 (NewServiceScheduler [] staleState commitAll) registerEval
      = Some (s', out)
      /\ length (submitted s') = 1%nat
      /\ Forall (planOfEval registerEval) (submitted s')
  | None => False
  end.
Proof.
  pose proof (proj2 (Process_plans 3 registerEval) [] staleState commitAll)
    as Hplans.
  rewrite factoryDone_eq in Hplans. unfold factoryDone in *.
  split; [exact factoryDone_eq |]. split; [reflexivity | exact Hplans].
Defined.

Lemma Process_failures_witness :
  match refreshDone with
  | Some (s', Returned (Some err)) =>
      Process 6 refreshScheduler registerEval = Some (s', Returned (Some err))
      /\ err = ErrMaxAttempts 5
      /\ (err = ErrMaxAttempts maxScheduleAttempts
          \/ exists e,
               err = ErrGetJob (Eval_JobID registerEval) e
               \/ err = ErrGetAllocs (Eval_JobID registerEval) e
               \/ err = ErrIterStack e
               \/ err = ErrPlanner e)
  | _ => False
  end.
Proof.
  pose proof (Process_failures 6 refreshScheduler registerEval) as Hfails.
  rewrite refreshDone_eq in Hfails. unfold refreshDone in *.
  split; [exact refreshDone_eq |]. split; [reflexivity | exact Hfails].
Defined.

Lemma freshDone_eq : Process 3 freshScheduler registerEval = freshDone.
Proof. vm_compute. reflexivity. Qed.

Lemma Process_success_witness :
  match freshDone with
  | Some (s', Returned None) =>
      Process 3 freshScheduler registerEval = Some (s', Returned None)
      /\ length (submitted s') = 1%nat
      /\ (registerSettled registerEval s' \/ evictSettled registerEval s')
  | _ => False
  end.
Proof.
  pose proof (Process_success 3 freshScheduler registerEval) as Hsettled.
  rewrite freshDone_eq in Hsettled. unfold freshDone in *.
  split; [exact freshDone_eq |]. split; [reflexivity | exact Hsettled].
Defined.

End Scenarios.
